(** * The admission webhook of the Spinnaker operator

    A shallow embedding of two Go files of the operator:

    - [controllers/webhook/webhook.go]: the registry of validated kinds,
      the path generator, operator identity resolution, [Start] and the
      construction of the validating webhook configuration;
    - the [accountvalidating] package: the admission handler of
      SpinnakerAccount objects.

    Go strings are byte strings and are modelled by [string]; Go errors
    are modelled by their text.  Calls that leave the two files (the
    Kubernetes client, the certificate helper, the account type registry,
    the validators, the secret engine) are fields of interface classes. *)

From Stdlib Require Import String Ascii List ZArith Bool Arith Lia.
Import ListNotations.

Local Open Scope string_scope.

Set Implicit Arguments.

(* ================================================================== *)
(** ** The part of Go's [strings] package the operator calls *)
(* ================================================================== *)

Module GoStrings.

(** What [strings] takes from [unicode] and [unicode/utf8].  The tables
    are not part of the operator: they are kept abstract. *)
Class Unicode := {
  (** [strings.Map(unicode.ToLower, s)] *)
  lowerRunes : string -> string;
  (** the width of [utf8.DecodeRuneInString(s)] *)
  runeWidth : string -> nat;
  (** [utf8.RuneCountInString(s)] *)
  runeCount : string -> nat
}.

(** The tables on text where every rune is a single byte. *)
Definition byteRunes : Unicode :=
  {| lowerRunes := fun s => s;
     runeWidth := fun s => match s with EmptyString => 0 | String _ _ => 1 end;
     runeCount := String.length |}.

(** [s[:n]] and [s[n:]] *)
Fixpoint take (n : nat) (s : string) : string :=
  match n, s with
  | S n', String c s' => String c (take n' s')
  | _, _ => EmptyString
  end.

Fixpoint drop (n : nat) (s : string) : string :=
  match n, s with
  | S n', String _ s' => drop n' s'
  | _, _ => s
  end.

Fixpoint mapBytes (f : ascii -> ascii) (s : string) : string :=
  match s with
  | EmptyString => EmptyString
  | String c s' => String (f c) (mapBytes f s')
  end.

Fixpoint allBytes (p : ascii -> bool) (s : string) : bool :=
  match s with
  | EmptyString => true
  | String c s' => p c && allBytes p s'
  end.

Fixpoint anyByte (p : ascii -> bool) (s : string) : bool :=
  match s with
  | EmptyString => false
  | String c s' => p c || anyByte p s'
  end.

(** [strings.Index]: the position of the first occurrence of [substr]
    in [s]; [None] stands for Go's [-1]. *)
Fixpoint Index (s substr : string) : option nat :=
  if String.prefix substr s then Some 0
  else match s with
       | EmptyString => None
       | String _ s' => option_map S (Index s' substr)
       end.

(** Occurrences of a non-empty [substr] in [s] that do not overlap,
    counted from the left; [skip] bytes belong to the last match. *)
Fixpoint countFrom (skip : nat) (s substr : string) : nat :=
  match s with
  | EmptyString => 0
  | String _ s' =>
      match skip with
      | S k => countFrom k s' substr
      | O => if String.prefix substr s
             then S (countFrom (String.length substr - 1) s' substr)
             else countFrom 0 s' substr
      end
  end.

Section WithUnicode.
Context {U : Unicode}.

(** [strings.Count] *)
Definition Count (s substr : string) : nat :=
  if (String.length substr =? 0)%nat then runeCount s + 1
  else countFrom 0 s substr.

(** The loop of [strings.Replace]: [n] replacements are still to be
    made in [rest = s[start:]]; [first] holds in the first round.
    [Replace] never asks for more rounds than [Count] found matches, so
    [Index] succeeds in each of them; the model ends the loop
    otherwise. *)
Fixpoint replaceLoop (old new : string) (n : nat) (first : bool) (rest : string)
  : string :=
  match n with
  | O => rest
  | S n' =>
      let j := if (String.length old =? 0)%nat
               then Some (if first then 0 else runeWidth rest)
               else Index rest old in
      match j with
      | Some j =>
          take j rest ++ new ++
          replaceLoop old new n' false (drop (j + String.length old) rest)
      | None => rest
      end
  end.

(** [strings.Replace(s, old, new, n)] *)
Definition Replace (s old new : string) (n : Z) : string :=
  if (old =? new) || (n =? 0)%Z then s
  else
    let m := Count s old in
    if (m =? 0)%nat then s
    else
      let n := if (n <? 0)%Z || (Z.of_nat m <? n)%Z then m else Z.to_nat n in
      replaceLoop old new n true s.

Definition isUpperByte (c : ascii) : bool :=
  (65 <=? nat_of_ascii c)%nat && (nat_of_ascii c <=? 90)%nat.

Definition lowerByte (c : ascii) : ascii :=
  if isUpperByte c then ascii_of_nat (nat_of_ascii c + 32) else c.

(** below [utf8.RuneSelf] *)
Definition isASCIIByte (c : ascii) : bool := (nat_of_ascii c <? 128)%nat.

(** [strings.ToLower]: bytewise on ASCII text, by runes otherwise. *)
Definition ToLower (s : string) : string :=
  if allBytes isASCIIByte s then
    if anyByte isUpperByte s then mapBytes lowerByte s else s
  else lowerRunes s.

End WithUnicode.

End GoStrings.

Import GoStrings.

(* ================================================================== *)
(** ** webhook.go: identities and the path generator *)
(* ================================================================== *)

(** [schema.GroupVersionKind] *)
Record GroupVersionKind := {
  Group : string;
  Version : string;
  Kind : string
}.

Section PathNamer.
Context {U : Unicode}.

Definition generateValidatePath (gvk : GroupVersionKind) : string :=
  "/validate-" ++ Replace (Group gvk) "." "-" (-1) ++ "-" ++
  Version gvk ++ "-" ++ ToLower (Kind gvk).

(** The path form in the words of the specification: the group with
    every dot turned into a dash, the version, the lowercased kind. *)
Definition dotsAsDashes (s : string) : string :=
  mapBytes (fun c => if Ascii.eqb c "."%char then "-"%char else c) s.

(** Lowercase, letter by letter: the twenty-six capital letters of
    ASCII go to their small letters and every other byte stays; text
    with a byte outside ASCII is lowercased by the Unicode tables. *)
Definition lowerLetter (c : ascii) : ascii :=
  match c with
  | "A" => "a" | "B" => "b" | "C" => "c" | "D" => "d" | "E" => "e"
  | "F" => "f" | "G" => "g" | "H" => "h" | "I" => "i" | "J" => "j"
  | "K" => "k" | "L" => "l" | "M" => "m" | "N" => "n" | "O" => "o"
  | "P" => "p" | "Q" => "q" | "R" => "r" | "S" => "s" | "T" => "t"
  | "U" => "u" | "V" => "v" | "W" => "w" | "X" => "x" | "Y" => "y"
  | "Z" => "z"
  | _ => c
  end%char.

(** A byte of ASCII: its high bit is clear. *)
Definition sevenBit (c : ascii) : bool :=
  match c with
  | Ascii _ _ _ _ _ _ _ high => negb high
  end.

Definition lowercased (s : string) : string :=
  if allBytes sevenBit s then mapBytes lowerLetter s else lowerRunes s.

Definition pathForm (group version kind : string) : string :=
  "/validate-" ++ dotsAsDashes group ++ "-" ++ version ++ "-" ++
  lowercased kind.

End PathNamer.

(* ================================================================== *)
(** ** Errors, results and state *)
(* ================================================================== *)

(** A Go [error], by the text of [err.Error()]. *)
Definition error := string.

(** A Go pair [(value, err)]: either the value, or a non-nil error. *)
Inductive result (A : Type) : Type :=
| Ok (a : A)
| Err (e : error).

Arguments Ok {A} a.
Arguments Err {A} e.

(** Code that mutates what it is handed: explicit state passing. *)
Definition State (S A : Type) : Type := S -> A * S.

Definition ret {S A : Type} (a : A) : State S A := fun s => (a, s).

Definition bind {S A B : Type} (c : State S A) (k : A -> State S B)
  : State S B :=
  fun s => let (a, s') := c s in k a s'.

Definition modify {S : Type} (f : S -> S) : State S unit :=
  fun s => (tt, f s).

Notation "x <- c ;; k" := (bind c (fun x => k))
  (at level 61, c at next level, right associativity).
Notation "c ;;; k" := (bind c (fun _ => k))
  (at level 61, right associativity).

(** A function body with one deferred call: the call runs once the
    body has produced the value to return, whichever [return] it is. *)
Definition defer {S A : Type} (deferred : State S unit) (body : State S A)
  : State S A :=
  a <- body ;; deferred ;;; ret a.

(* ================================================================== *)
(** ** The Kubernetes API objects webhook.go builds *)
(* ================================================================== *)

Module metav1.
Record ObjectMeta := {
  Name : string;
  Namespace : string;
  Labels : list (string * string)
}.

(** [metav1.Status], as far as admission responses fill it. *)
Record Status := {
  Code : Z;
  Message : string;
  Reason : string
}.
End metav1.

Module v1.
Record ServicePort := {
  Name : string;
  Protocol : string;
  Port : Z;
  TargetPort : Z
}.

Record Service := {
  ObjectMeta : metav1.ObjectMeta;
  Selector : list (string * string);
  Ports : list ServicePort
}.
End v1.

Module ar_v1.
Inductive OperationType := Create | Update | Delete | Connect.

Inductive SideEffectClass :=
| SideEffectClassUnknown
| SideEffectClassNone
| SideEffectClassSome
| SideEffectClassNoneOnDryRun.

Record ServiceReference := {
  Namespace : string;
  Name : string;
  Path : option string
}.

Record WebhookClientConfig := {
  Service : option ServiceReference;
  CABundle : string
}.

Record Rule := {
  APIGroups : list string;
  APIVersions : list string;
  Resources : list string
}.

Record RuleWithOperations := {
  Operations : list OperationType;
  rule : Rule
}.

Record ValidatingWebhook := {
  webhookName : string;
  ClientConfig : WebhookClientConfig;
  Rules : list RuleWithOperations;
  SideEffects : option SideEffectClass;
  AdmissionReviewVersions : list string
}.

Record ValidatingWebhookConfiguration := {
  ObjectMeta : metav1.ObjectMeta;
  Webhooks : list ValidatingWebhook
}.
End ar_v1.

(* ================================================================== *)
(** ** webhook.go: the registry and [Start] *)
(* ================================================================== *)

Definition servicePort : Z := 9876.

Section Registry.

(** [admission.Handler]: webhook.go stores handlers and hands them to
    the server, and never calls them. *)
Variable Handler : Type.

Record registration := {
  kind : GroupVersionKind;
  h : Handler;
  p : string;
  r : string
}.

(** [webhook.Server], as far as [Start] touches it: the two fields it
    sets and the [Register(path, hook)] calls it receives, in order. *)
Record Server := {
  CertDir : string;
  Port : Z;
  registered : list (string * Handler)
}.

(** The fields of [certContext] that [Start] reads. *)
Record certContext := {
  certDir : string;
  signingCert : string
}.

(** What [Start] needs from outside webhook.go.  [Cluster] is the
    state behind the raw Kubernetes client. *)
Class Platform := {
  Cluster : Type;
  (** [k8sutil.GetOperatorName()] *)
  GetOperatorName : result string;
  (** [k8sutil.GetOperatorNamespace()] *)
  GetOperatorNamespace : result string;
  (** [os.Getenv]: the value of a variable, [""] when it is unset *)
  Getenv : string -> string;
  (** [util.CreateOrUpdateService] *)
  CreateOrUpdateService : v1.Service -> State Cluster (option error);
  (** [getCertContext(ns, name)], of another file of the package *)
  getCertContext : string -> string -> State Cluster (result certContext);
  (** [util.CreateOrUpdateValidatingWebhookConfiguration] *)
  CreateOrUpdateValidatingWebhookConfiguration :
    ar_v1.ValidatingWebhookConfiguration -> State Cluster (option error)
}.

Context {U : Unicode} {P : Platform}.

(** The package variable [registrations] is passed explicitly. *)
Definition Register (kind : GroupVersionKind) (resources : string)
  (h : Handler) (registrations : list registration) : list registration :=
  registrations ++
  [ {| kind := kind; h := h; p := generateValidatePath kind; r := resources |} ].

Definition getOperatorNameAndNamespace : result (string * string) :=
  match GetOperatorName with
  | Err err => Err err
  | Ok name =>
      match GetOperatorNamespace with
      | Err err =>
          let envNs := Getenv "ADMISSION_PROXY_NAMESPACE" in
          if envNs =? "" then
            Err ("unable to determine operator namespace. Error: " ++ err ++
                 " and ADMISSION_PROXY_NAMESPACE env var not set")
          else Ok (envNs, name)
      | Ok ns => Ok (ns, name)
      end
  end.

Definition deployWebhookService (ns name : string) (port : Z)
  : State Cluster (option error) :=
  let selectorLabels := [("name", name)] in
  let service :=
    {| v1.ObjectMeta :=
         {| metav1.Namespace := ns;
            metav1.Name := name;
            metav1.Labels := selectorLabels |};
       v1.Selector := selectorLabels;
       v1.Ports :=
         [ {| v1.Name := "http";
              v1.Protocol := "TCP";
              v1.Port := 443;
              v1.TargetPort := port |} ] |} in
  CreateOrUpdateService service.

Definition sideEffect (sideEffect : ar_v1.SideEffectClass)
  : option ar_v1.SideEffectClass :=
  Some sideEffect.

(** The entry the loop of [deployValidatingWebhookConfiguration]
    appends for the registration [reg]. *)
Definition validatingWebhook (svcName ns cert : string) (reg : registration)
  : ar_v1.ValidatingWebhook :=
  {| ar_v1.webhookName :=
       "webhook-" ++ r reg ++ "-" ++ Version (kind reg) ++ "." ++
       ToLower (Group (kind reg));
     ar_v1.ClientConfig :=
       {| ar_v1.Service :=
            Some {| ar_v1.Namespace := ns;
                    ar_v1.Name := svcName;
                    ar_v1.Path := Some (p reg) |};
          ar_v1.CABundle := cert |};
     ar_v1.Rules :=
       [ {| ar_v1.Operations := [ar_v1.Create; ar_v1.Update];
            ar_v1.rule :=
              {| ar_v1.APIGroups := [Group (kind reg)];
                 ar_v1.APIVersions := [Version (kind reg)];
                 ar_v1.Resources := [r reg] |} |} ];
     ar_v1.SideEffects := sideEffect ar_v1.SideEffectClassNone;
     ar_v1.AdmissionReviewVersions := ["v1beta1"; "v1"] |}.

(** The configuration [deployValidatingWebhookConfiguration] builds:
    the named object, then one [append] per registration. *)
Definition validatingWebhookConfiguration (svcName ns : string)
  (registrations : list registration) (cert : string)
  : ar_v1.ValidatingWebhookConfiguration :=
  let webhookConfig :=
    {| ar_v1.ObjectMeta :=
         {| metav1.Name := "spinnakervalidatingwebhook";
            metav1.Namespace := ns;
            metav1.Labels := [] |};
       ar_v1.Webhooks := [] |} in
  fold_left
    (fun webhookConfig reg =>
       {| ar_v1.ObjectMeta := ar_v1.ObjectMeta webhookConfig;
          ar_v1.Webhooks :=
            ar_v1.Webhooks webhookConfig ++
            [validatingWebhook svcName ns cert reg] |})
    registrations webhookConfig.

Definition deployValidatingWebhookConfiguration (svcName ns : string)
  (registrations : list registration) (cert : string)
  : State Cluster (option error) :=
  CreateOrUpdateValidatingWebhookConfiguration
    (validatingWebhookConfiguration svcName ns registrations cert).

(** [hookServer.Register(path, hook)] *)
Definition serverRegister (path : string) (hook : Handler) (s : Server)
  : Server :=
  {| CertDir := CertDir s;
     Port := Port s;
     registered := registered s ++ [(path, hook)] |}.

(** [Start] works on the manager's webhook server and on the cluster. *)
Definition onServer {A : Type} (c : State Server A)
  : State (Server * Cluster) A :=
  fun st => let (a, s) := c (fst st) in (a, (s, snd st)).

Definition onCluster {A : Type} (c : State Cluster A)
  : State (Server * Cluster) A :=
  fun st => let (a, k) := c (snd st) in (a, (fst st, k)).

(** The [for _, r := range registrations] loop of [Start]. *)
Fixpoint registerAll (registrations : list registration) : State Server unit :=
  match registrations with
  | [] => ret tt
  | reg :: rest =>
      modify (serverRegister (p reg) (h reg)) ;;; registerAll rest
  end.

Definition Start (registrations : list registration)
  : State (Server * Cluster) (option error) :=
  if (List.length registrations =? 0)%nat then
    ret (Some "no kind registered for validation")
  else
    match getOperatorNameAndNamespace with
    | Err err => ret (Some err)
    | Ok (ns, name) =>
        err <- onCluster (deployWebhookService ns name servicePort) ;;
        match err with
        | Some err => ret (Some err)
        | None =>
            c <- onCluster (getCertContext ns name) ;;
            match c with
            | Err err => ret (Some err)
            | Ok c =>
                onServer (modify (fun s =>
                  {| CertDir := certDir c;
                     Port := Port s;
                     registered := registered s |})) ;;;
                onServer (modify (fun s =>
                  {| CertDir := CertDir s;
                     Port := servicePort;
                     registered := registered s |})) ;;;
                onServer (registerAll registrations) ;;;
                onCluster (deployValidatingWebhookConfiguration
                             name ns registrations (signingCert c))
            end
        end
    end.

End Registry.

(* ================================================================== *)
(** ** controller-runtime's [admission] package, as the handler uses it *)
(* ================================================================== *)

Module admission.
(** [admission.Request]: the requested kind and the raw object. *)
Record Request := {
  Kind : GroupVersionKind;
  Object : string
}.

(** [admission.Response] *)
Record Response := {
  Allowed : bool;
  Result : option metav1.Status
}.

(** [admission.Errored(code, err)] *)
Definition Errored (code : Z) (err : error) : Response :=
  {| Allowed := false;
     Result := Some {| metav1.Code := code;
                       metav1.Message := err;
                       metav1.Reason := "" |} |}.

(** [admission.ValidationResponse(allowed, reason)] *)
Definition ValidationResponse (allowed : bool) (reason : string) : Response :=
  let code := if allowed then 200%Z else 403%Z in
  {| Allowed := allowed;
     Result := Some {| metav1.Code := code;
                       metav1.Message := "";
                       metav1.Reason := reason |} |}.
End admission.

Module http.
Definition StatusBadRequest : Z := 400.
Definition StatusUnprocessableEntity : Z := 422.
End http.

(* ================================================================== *)
(** ** The account admission handler *)
(* ================================================================== *)

(** What a call of [Handle] does outside its own frame, in order. *)
Inductive Event :=
| LogInfo (msg : string)
| DecodeCall (raw : string)
| GetTypeCall (accountType : string)
| FromCRDCall
| NewContextCall (id : nat) (namespace : string)
| ValidateCall (id : option nat)
| CleanupCall (id : option nat).

(** The world around the handler: the secret contexts that were
    acquired and not yet released, the next fresh context, the calls so
    far (oldest first). *)
Record World := {
  nextContext : nat;
  liveContexts : list nat;
  trace : list Event
}.

Definition emit (e : Event) : State World unit :=
  modify (fun w =>
    {| nextContext := nextContext w;
       liveContexts := liveContexts w;
       trace := trace w ++ [e] |}).

(** [schema.GroupVersion] *)
Record GroupVersion := {
  gvGroup : string;
  gvVersion : string
}.

(** The collaborators of the handler: the types factory, the account
    type registry with its account types, accounts and validators, and
    the values injected into the controller. *)
Class Collaborators := {
  (** [interfaces.SpinnakerAccount], [accounts.SpinnakerAccountType],
      [account.Account], [account.AccountValidator] *)
  SpinnakerAccount : Type;
  AccountType : Type;
  Account : Type;
  AccountValidator : Type;
  Client : Type;
  RestConfig : Type;
  (** [TypesFactory.GetGroupVersion()] and [TypesFactory.NewAccount()] *)
  GetGroupVersion : GroupVersion;
  NewAccount : SpinnakerAccount;
  (** [acc.GetSpec().Type] and [acc.GetNamespace()] *)
  GetSpecType : SpinnakerAccount -> string;
  GetNamespace : SpinnakerAccount -> string;
  (** [decoder.Decode(req, acc)]: the account filled from the raw
      object, or the decode error *)
  Decode : admission.Request -> SpinnakerAccount -> result SpinnakerAccount;
  (** [accounts.GetType] *)
  GetType : string -> result AccountType;
  (** [accType.FromCRD(acc)] *)
  FromCRD : AccountType -> SpinnakerAccount -> result Account;
  (** [spinAccount.NewValidator()] *)
  NewValidator : Account -> AccountValidator;
  (** [av.Validate(nil, client, ctx, log)], given the secret context
      that [ctx] carries: [None] is a nil error *)
  Validate : AccountValidator -> Client -> option nat -> option error
}.

Section AccountValidating.
Context {C : Collaborators}.

(** The controller after injection.  The decoder is the [Decode]
    collaborator. *)
Record accountValidatingController := {
  client : Client;
  restConfig : RestConfig
}.

(** A [context.Context], by the secret context it carries, if any. *)
Definition Context_ := option nat.

(** Modelled from the spec: the [secrets] package is missing from the
    sources; it is "a scoped secret-resolution context provider with
    explicit acquire/release".  [NewContext] acquires a fresh context
    for the namespace and returns a [ctx] that carries it. *)
Definition NewContext (ctx : Context_) (cfg : RestConfig) (namespace : string)
  : State World Context_ :=
  fun w =>
    let id := nextContext w in
    (Some id,
     {| nextContext := S id;
        liveContexts := id :: liveContexts w;
        trace := trace w ++ [NewContextCall id namespace] |}).

(** Modelled from the spec: [Cleanup] releases the secret context that
    [ctx] carries; on a [ctx] that carries none there is nothing to
    release. *)
Definition Cleanup (ctx : Context_) : State World unit :=
  fun w =>
    (tt,
     {| nextContext := nextContext w;
        liveContexts :=
          match ctx with
          | Some id => List.remove Nat.eq_dec id (liveContexts w)
          | None => liveContexts w
          end;
        trace := trace w ++ [CleanupCall ctx] |}).

(** An outside call that returns [a]: the call is recorded. *)
Definition call {A : Type} (e : Event) (a : A) : State World A :=
  emit e ;;; ret a.

(** The guard of [Handle]: the request is for a SpinnakerAccount of the
    group and version of the types factory. *)
Definition isAccountRequest (req : admission.Request) : bool :=
  let gv := GetGroupVersion in
  ("SpinnakerAccount" =? Kind (admission.Kind req)) &&
  (gvGroup gv =? Group (admission.Kind req)) &&
  (gvVersion gv =? Version (admission.Kind req)).

Definition Handle (v : accountValidatingController) (ctx : Context_)
  (req : admission.Request) : State World admission.Response :=
  emit (LogInfo ("Handling admission request for: " ++
                 Kind (admission.Kind req))) ;;;
  let acc := NewAccount in
  if isAccountRequest req then
    decoded <- call (DecodeCall (admission.Object req)) (Decode req acc) ;;
    match decoded with
    | Err err => ret (admission.Errored http.StatusBadRequest err)
    | Ok acc =>
        accType <- call (GetTypeCall (GetSpecType acc))
                        (GetType (GetSpecType acc)) ;;
        match accType with
        | Err err => ret (admission.Errored http.StatusBadRequest err)
        | Ok accType =>
            spinAccount <- call FromCRDCall (FromCRD accType acc) ;;
            match spinAccount with
            | Err err => ret (admission.Errored http.StatusBadRequest err)
            | Ok spinAccount =>
                let av := NewValidator spinAccount in
                ctx <- NewContext ctx (restConfig v) (GetNamespace acc) ;;
                defer (Cleanup ctx)
                  (err <- call (ValidateCall ctx) (Validate av (client v) ctx) ;;
                   match err with
                   | Some err =>
                       ret (admission.Errored
                              http.StatusUnprocessableEntity err)
                   | None => ret (admission.ValidationResponse true "")
                   end)
            end
        end
    end
  else ret (admission.ValidationResponse true "").

End AccountValidating.

(* ================================================================== *)
(** ** Registries as they come to be, and sample values *)
(* ================================================================== *)

Section Built.
Variable Handler : Type.
Context {U : Unicode}.

(** The arguments of one [Register] call. *)
Definition RegisterCall : Type := GroupVersionKind * string * Handler.

(** The registry after the given calls of [Register], made in order on
    the empty registry the package starts with. *)
Definition registryAfter (calls : list RegisterCall) : list (registration Handler) :=
  fold_left
    (fun registrations c =>
       match c with
       | (kind, resources, h) => Register kind resources h registrations
       end)
    calls [].

(** The invariant of the registry: the stored path of an entry is the
    generated path of its stored kind. *)
Definition pathOfKind (reg : registration Handler) : Prop :=
  p reg = generateValidatePath (kind reg).

End Built.

(** The identity of pods. *)
Definition podKind : GroupVersionKind :=
  {| Group := ""; Version := "v1"; Kind := "Pod" |}.

(** A platform for worked examples.  The cluster is the list of the
    names of the objects applied to it; applying an object and fetching
    the certificates succeed. *)
Definition examplePlatform (name ns : result string) (envNs : string)
  : Platform :=
  {| Cluster := list string;
     GetOperatorName := name;
     GetOperatorNamespace := ns;
     Getenv := fun key =>
       if key =? "ADMISSION_PROXY_NAMESPACE" then envNs else "";
     CreateOrUpdateService := fun service cluster =>
       (None, (cluster ++ [metav1.Name (v1.ObjectMeta service)])%list);
     getCertContext := fun ns name cluster =>
       (Ok {| certDir := "/tmp/k8s-webhook-server/serving-certs";
              signingCert := "ca-bundle" |}, cluster);
     CreateOrUpdateValidatingWebhookConfiguration := fun config cluster =>
       (None, (cluster ++ [metav1.Name (ar_v1.ObjectMeta config)])%list) |}.

(** A webhook server nothing was registered on yet; handlers are named
    by strings in the examples. *)
Definition freshServer : Server string :=
  {| CertDir := ""; Port := 9443; registered := [] |}.

(** The identity and the registry of the operator's account webhook. *)
Definition accountKind : GroupVersionKind :=
  {| Group := "spinnaker.io"; Version := "v1alpha2";
     Kind := "SpinnakerAccount" |}.

Definition accountRegistry : list (registration string) :=
  @Register string byteRunes accountKind "spinnakeraccounts"
    "accountValidatingController" [].

(* ================================================================== *)
(** ** Reading traces, and sample collaborators *)
(* ================================================================== *)

Definition isCleanupOf (id : nat) (e : Event) : bool :=
  match e with
  | CleanupCall (Some j) => Nat.eqb id j
  | _ => false
  end.

Definition isNewContext (e : Event) : bool :=
  match e with
  | NewContextCall _ _ => true
  | _ => false
  end.

Definition isDecodeOrValidate (e : Event) : bool :=
  match e with
  | DecodeCall _ | GetTypeCall _ | FromCRDCall | ValidateCall _ => true
  | _ => false
  end.

(** The world [w] after the calls [events], none of which touches the
    secret contexts. *)
Definition logged (w : World) (events : list Event) : World :=
  {| nextContext := nextContext w;
     liveContexts := liveContexts w;
     trace := trace w ++ events |}.

(** How often the secret context [id] is released in [events]. *)
Definition releases (id : nat) (events : list Event) : nat :=
  List.length (filter (isCleanupOf id) events).

(** How many secret contexts are acquired in [events]. *)
Definition acquisitions (events : list Event) : nat :=
  List.length (filter isNewContext events).

Section AccountIdentity.
Context {C : Collaborators}.

(** The identity the handler answers for. *)
Definition accountIdentity : GroupVersionKind :=
  {| Group := gvGroup GetGroupVersion;
     Version := gvVersion GetGroupVersion;
     Kind := "SpinnakerAccount" |}.

End AccountIdentity.

(** Collaborators for worked examples.  An account is its namespace and
    its type; the raw object is read as the type of an account in the
    namespace "spinnaker"; "Kubernetes" is the one registered type;
    validation returns [verdict]. *)
Definition exampleCollaborators (verdict : option error) : Collaborators :=
  {| SpinnakerAccount := string * string;
     AccountType := string;
     Account := string;
     AccountValidator := string;
     Client := unit;
     RestConfig := unit;
     GetGroupVersion := {| gvGroup := "spinnaker.io"; gvVersion := "v1alpha2" |};
     NewAccount := ("", "");
     GetSpecType := snd;
     GetNamespace := fst;
     Decode := fun req _ =>
       if admission.Object req =? "" then Err "there is no content to decode"
       else Ok ("spinnaker", admission.Object req);
     GetType := fun t =>
       if t =? "Kubernetes" then Ok t
       else Err ("no account type " ++ t ++ " registered");
     FromCRD := fun _ acc => Ok (snd acc);
     NewValidator := fun account => account;
     Validate := fun _ _ _ => verdict |}.

Definition exampleController (verdict : option error)
  : @accountValidatingController (exampleCollaborators verdict) :=
  @Build_accountValidatingController (exampleCollaborators verdict) tt tt.

Definition accountRequest (raw : string) : admission.Request :=
  {| admission.Kind := accountKind; admission.Object := raw |}.

Definition podRequest (raw : string) : admission.Request :=
  {| admission.Kind := podKind; admission.Object := raw |}.

Definition emptyWorld : World :=
  {| nextContext := 0; liveContexts := []; trace := [] |}.

(* ================================================================== *)
(** ** The rest of the two files *)
(* ================================================================== *)

Section AddController.
Variable Handler : Type.
Context {U : Unicode}.

(** [Add] of the account package, on the registry of the webhook
    package.  [gvkForObject] is what
    [apiutil.GVKForObject(TypesFactory.NewAccount(), m.GetScheme())]
    returns, [controller] is the handler [&accountValidatingController{}]. *)
Definition Add (gvkForObject : result GroupVersionKind) (controller : Handler)
  : State (list (registration Handler)) (option error) :=
  match gvkForObject with
  | Err err => ret (Some err)
  | Ok gvk =>
      modify (Register gvk "spinnakeraccounts" controller) ;;; ret None
  end.

End AddController.

(** The service object that [deployWebhookService] hands to
    [util.CreateOrUpdateService]. *)
Definition webhookService (ns name : string) (port : Z) : v1.Service :=
  let selectorLabels := [("name", name)] in
  {| v1.ObjectMeta :=
       {| metav1.Namespace := ns;
          metav1.Name := name;
          metav1.Labels := selectorLabels |};
     v1.Selector := selectorLabels;
     v1.Ports :=
       [ {| v1.Name := "http";
            v1.Protocol := "TCP";
            v1.Port := 443;
            v1.TargetPort := port |} ] |}.

(** The path a webhook of the configuration sends its requests to. *)
Definition advertisedPath (hook : ar_v1.ValidatingWebhook) : option string :=
  match ar_v1.Service (ar_v1.ClientConfig hook) with
  | Some ref => ar_v1.Path ref
  | None => None
  end.

(** Text without a dash. *)
Definition dashFree (s : string) : bool :=
  allBytes (fun c => negb (Ascii.eqb c "-"%char)) s.

(** Counting the calls of a trace. *)
Definition isCleanup (e : Event) : bool :=
  match e with
  | CleanupCall _ => true
  | _ => false
  end.

Definition isValidate (e : Event) : bool :=
  match e with
  | ValidateCall _ => true
  | _ => false
  end.

Definition cleanups (events : list Event) : nat :=
  List.length (filter isCleanup events).

Definition validations (events : list Event) : nat :=
  List.length (filter isValidate events).

(** A world in which the next context is fresh: every live context was
    handed out before. *)
Definition freshNext (w : World) : Prop :=
  Forall (fun id => id < nextContext w) (liveContexts w).

Section Serving.
Context {C : Collaborators}.

(** The requests of a list handled one after the other, as a server
    that takes one request at a time does. *)
Fixpoint handleAll (v : accountValidatingController)
  (requests : list (Context_ * admission.Request))
  : State World (list admission.Response) :=
  match requests with
  | [] => ret []
  | (ctx, req) :: rest =>
      response <- Handle v ctx req ;;
      responses <- handleAll v rest ;;
      ret (response :: responses)
  end.

End Serving.

(** An identity written with capital letters in its group, and the
    registry with the one registration of it. *)
Definition capitalKind : GroupVersionKind :=
  {| Group := "Spinnaker.Armory.IO"; Version := "v1alpha2";
     Kind := "SpinnakerAccount" |}.

Definition capitalRegistry : list (registration string) :=
  @Register string byteRunes capitalKind "spinnakeraccounts"
    "accountValidatingController" [].
(* ================================================================== *)
(** * Properties *)
(* ================================================================== *)

(** ** Replacing dots by dashes *)

Section ReplaceDots.
Context {U : Unicode}.

Lemma Index_dot_here (s : string) :
  Index (String "."%char s) "." = Some 0.
Proof.
  simpl. destruct s; reflexivity.
Qed.

Lemma prefix_dot_other (c : ascii) (s : string) :
  c <> "."%char -> String.prefix "." (String c s) = false.
Proof.
  intros Hc.
  change (String.prefix "." (String c s))
    with (if ascii_dec "."%char c then String.prefix "" s else false).
  destruct (ascii_dec "."%char c) as [E | _]; [congruence | reflexivity].
Qed.

Lemma Index_dot_other (c : ascii) (s : string) :
  c <> "."%char ->
  Index (String c s) "." = option_map S (Index s ".").
Proof.
  intros Hc.
  change (Index (String c s) ".")
    with (if String.prefix "." (String c s) then Some 0
          else option_map S (Index s ".")).
  now rewrite prefix_dot_other.
Qed.

Lemma countFrom_dot_here (s : string) :
  countFrom 0 (String "."%char s) "." = S (countFrom 0 s ".").
Proof.
  simpl. destruct s; reflexivity.
Qed.

Lemma countFrom_dot_other (c : ascii) (s : string) :
  c <> "."%char ->
  countFrom 0 (String c s) "." = countFrom 0 s ".".
Proof.
  intros Hc.
  change (countFrom 0 (String c s) ".")
    with (if String.prefix "." (String c s)
          then S (countFrom 0 s ".") else countFrom 0 s ".").
  now rewrite prefix_dot_other.
Qed.

Lemma replaceLoop_dot_step (n : nat) (first : bool) (rest : string) :
  replaceLoop "." "-" (S n) first rest =
  match Index rest "." with
  | Some j =>
      take j rest ++ "-" ++ replaceLoop "." "-" n false (drop (j + 1) rest)
  | None => rest
  end.
Proof. reflexivity. Qed.

(** A byte that is no dot in front of the text stays in front of the
    result, however many rounds the loop makes. *)
Lemma replaceLoop_dot_other (c : ascii) (s : string) (n : nat) (first : bool) :
  c <> "."%char ->
  replaceLoop "." "-" n first (String c s) =
  String c (replaceLoop "." "-" n false s).
Proof.
  intros Hc. destruct n as [| n]; [reflexivity |].
  rewrite !replaceLoop_dot_step, Index_dot_other by assumption.
  destruct (Index s ".") as [j |]; reflexivity.
Qed.

Lemma replaceLoop_dots (s : string) : forall first,
  replaceLoop "." "-" (countFrom 0 s ".") first s = dotsAsDashes s.
Proof.
  induction s as [| c s IH]; intros first; [reflexivity |].
  destruct (ascii_dec c "."%char) as [-> | Hc].
  - rewrite countFrom_dot_here, replaceLoop_dot_step, Index_dot_here.
    change (drop (0 + 1) (String "."%char s)) with s.
    rewrite IH. reflexivity.
  - rewrite countFrom_dot_other, replaceLoop_dot_other by assumption.
    rewrite IH. unfold dotsAsDashes. simpl.
    destruct (Ascii.eqb_spec c "."%char); [contradiction | reflexivity].
Qed.

(** [strings.Replace(s, ".", "-", -1)] turns every dot of [s] into a
    dash and changes nothing else. *)
Lemma Replace_dots (s : string) :
  Replace s "." "-" (-1) = dotsAsDashes s.
Proof.
  unfold Replace, Count. simpl.
  destruct (countFrom 0 s "." =? 0)%nat eqn:E.
  - apply Nat.eqb_eq in E.
    rewrite <- (replaceLoop_dots s true), E. reflexivity.
  - apply replaceLoop_dots.
Qed.

End ReplaceDots.

(** ** Lowercasing *)

Lemma lowerByte_lowerLetter (c : ascii) : lowerByte c = lowerLetter c.
Proof.
  destruct c as [[] [] [] [] [] [] [] []]; reflexivity.
Qed.

Lemma isASCIIByte_sevenBit (c : ascii) : isASCIIByte c = sevenBit c.
Proof.
  destruct c as [[] [] [] [] [] [] [] []]; reflexivity.
Qed.

Lemma allBytes_ASCII_sevenBit (s : string) :
  allBytes isASCIIByte s = allBytes sevenBit s.
Proof.
  induction s as [| c s IH]; simpl; [reflexivity |].
  now rewrite isASCIIByte_sevenBit, IH.
Qed.

Lemma mapBytes_lowerByte_lowerLetter (s : string) :
  mapBytes lowerByte s = mapBytes lowerLetter s.
Proof.
  induction s as [| c s IH]; simpl; [reflexivity |].
  now rewrite lowerByte_lowerLetter, IH.
Qed.

(** Text without a capital letter is its own lowercase. *)
Lemma mapBytes_lowerLetter_no_upper (s : string) :
  anyByte isUpperByte s = false -> mapBytes lowerLetter s = s.
Proof.
  induction s as [| c s IH]; simpl; [reflexivity |].
  intros H. apply orb_false_iff in H as [Hc Hs].
  rewrite IH by assumption. f_equal.
  rewrite <- lowerByte_lowerLetter. unfold lowerByte. now rewrite Hc.
Qed.

Section Lowercasing.
Context {U : Unicode}.

(** [strings.ToLower] lowercases: with its test for ASCII, its test
    for capital letters and its arithmetic on bytes, it maps every
    capital letter of an ASCII text to its small letter and keeps the
    other bytes. *)
Lemma ToLower_lowercased (s : string) : ToLower s = lowercased s.
Proof.
  unfold ToLower, lowercased. rewrite allBytes_ASCII_sevenBit.
  destruct (allBytes sevenBit s); [| reflexivity].
  destruct (anyByte isUpperByte s) eqn:E.
  - apply mapBytes_lowerByte_lowerLetter.
  - symmetry. now apply mapBytes_lowerLetter_no_upper.
Qed.

End Lowercasing.

(** ** The path generator *)

Section PathNamerProperties.
Context {U : Unicode}.

(** C6: the path is a function of the (group, version, kind) triple
    alone, so naming the same identity twice gives the same path, and it
    is [/validate-<group with dots as dashes>-<version>-<lowercased
    kind>]: the group with every dot replaced by a dash and the kind
    with every capital letter replaced by its small letter, both as
    [dotsAsDashes] and [lowercased] say it byte by byte, without the
    string functions of the code. *)
Theorem generateValidatePath_deterministic_form (gvk gvk' : GroupVersionKind) :
  Group gvk = Group gvk' ->
  Version gvk = Version gvk' ->
  Kind gvk = Kind gvk' ->
  generateValidatePath gvk = generateValidatePath gvk' /\
  generateValidatePath gvk = pathForm (Group gvk) (Version gvk) (Kind gvk).
Proof.
  intros Hg Hv Hk. split.
  - unfold generateValidatePath. now rewrite Hg, Hv, Hk.
  - unfold generateValidatePath, pathForm.
    now rewrite Replace_dots, ToLower_lowercased.
Qed.

(** C3, as the code has it: the empty group of pods leaves its own
    dash in the path, which is [/validate--v1-pod]. *)
Theorem generateValidatePath_pod :
  generateValidatePath podKind = "/validate--v1-pod".
Proof. reflexivity. Qed.

End PathNamerProperties.

Lemma generateValidatePath_deterministic_form_witness :
  @generateValidatePath byteRunes capitalKind =
    @generateValidatePath byteRunes
      {| Group := "Spinnaker.Armory.IO"; Version := "v1alpha2";
         Kind := "SpinnakerAccount" |} /\
  @generateValidatePath byteRunes capitalKind =
    "/validate-Spinnaker-Armory-IO-v1alpha2-spinnakeraccount".
Proof.
  exact (@generateValidatePath_deterministic_form byteRunes capitalKind
           {| Group := "Spinnaker.Armory.IO"; Version := "v1alpha2";
              Kind := "SpinnakerAccount" |}
           eq_refl eq_refl eq_refl).
Defined.

(** C3, as the specification words it, fails: the path of pods is not
    [/validate-v1-pod]. *)
Lemma generateValidatePath_pod_single_dash_fails :
  @generateValidatePath byteRunes podKind <> "/validate-v1-pod".
Proof. vm_compute. discriminate. Qed.

(** ** The registry *)

Section RegistryProperties.
Variable Handler : Type.
Context {U : Unicode}.

Lemma Register_pathOfKind (gvk : GroupVersionKind) (resources : string)
  (hd : Handler) (registrations : list (registration Handler)) :
  Forall (@pathOfKind Handler U) registrations ->
  Forall (@pathOfKind Handler U) (Register gvk resources hd registrations).
Proof.
  intros H. unfold Register. apply Forall_app. split; [exact H |].
  constructor; [reflexivity | constructor].
Qed.

Lemma registryAfter_snoc (calls : list (RegisterCall Handler))
  (gvk : GroupVersionKind) (resources : string) (hd : Handler) :
  registryAfter (calls ++ [(gvk, resources, hd)])%list =
  Register gvk resources hd (registryAfter calls).
Proof.
  unfold registryAfter. now rewrite fold_left_app.
Qed.

(** C10: [Register] has no failing outcome; a call leaves the old
    entries in place and adds one entry at the end, also when the
    identity is registered already; and in every registry that
    [Register] calls build, each stored path is the generated path of
    the stored kind. *)
Theorem Register_appends_one_and_keeps_paths :
  (forall gvk resources hd (registrations : list (registration Handler)),
      exists reg,
        Register gvk resources hd registrations = (registrations ++ [reg])%list /\
        kind reg = gvk /\ r reg = resources /\ h reg = hd /\
        p reg = generateValidatePath gvk) /\
  (forall gvk resources hd (registrations : list (registration Handler)),
      List.length
        (Register gvk resources hd (Register gvk resources hd registrations)) =
      S (S (List.length registrations))) /\
  (forall calls : list (RegisterCall Handler),
      List.length (registryAfter calls) = List.length calls /\
      Forall (@pathOfKind Handler U) (registryAfter calls)).
Proof.
  split; [| split].
  - intros gvk resources hd registrations.
    eexists. split; [reflexivity |]. simpl. repeat split.
  - intros. unfold Register. rewrite !length_app. simpl. lia.
  - intros calls. induction calls as [| [[gvk resources] hd] calls IH]
      using rev_ind.
    + split; [reflexivity | constructor].
    + destruct IH as [IHlen IHpath].
      rewrite registryAfter_snoc. split.
      * unfold Register. rewrite !length_app, IHlen. reflexivity.
      * now apply Register_pathOfKind.
Qed.

End RegistryProperties.

(** ** Operator identity and [Start] *)

Section StartProperties.
Variable Handler : Type.
Context {U : Unicode} {P : Platform}.

Lemma registerAll_registered (registrations : list (registration Handler)) :
  forall s : Server Handler,
    registerAll registrations s =
    (tt, {| CertDir := CertDir s;
            Port := Port s;
            registered :=
              (registered s ++
               map (fun reg => (p reg, h reg)) registrations)%list |}).
Proof.
  induction registrations as [| reg rest IH]; intros s.
  - simpl. unfold ret. rewrite app_nil_r. now destruct s.
  - simpl. unfold bind, modify. rewrite IH. simpl.
    now rewrite <- app_assoc.
Qed.

Lemma Start_nonempty (registrations : list (registration Handler)) :
  registrations <> [] ->
  (List.length registrations =? 0)%nat = false.
Proof.
  destruct registrations; [congruence | reflexivity].
Qed.

(** When the operator name cannot be resolved, nothing else is tried. *)
Lemma getOperatorNameAndNamespace_no_name (err : error) :
  GetOperatorName = Err err ->
  getOperatorNameAndNamespace = Err err.
Proof.
  intros H. unfold getOperatorNameAndNamespace. now rewrite H.
Qed.

(** A failure of identity resolution leaves [Start] with that error. *)
Lemma Start_identity_error (registrations : list (registration Handler))
  (st : Server Handler * Cluster) (err : error) :
  registrations <> [] ->
  getOperatorNameAndNamespace = Err err ->
  Start registrations st = (Some err, st).
Proof.
  intros Hne Herr. unfold Start.
  rewrite (Start_nonempty Hne), Herr. reflexivity.
Qed.

(** C9: with the operator name resolved, identity resolution returns
    the namespace of the platform and the name; when the platform has
    no namespace, the namespace is the value of
    ADMISSION_PROXY_NAMESPACE; when that variable is unset as well,
    resolution fails, and [Start] returns that error and touches
    neither the server nor the cluster. *)
Theorem getOperatorNameAndNamespace_resolution (name : string) :
  GetOperatorName = Ok name ->
  match GetOperatorNamespace with
  | Ok ns => getOperatorNameAndNamespace = Ok (ns, name)
  | Err nsErr =>
      if Getenv "ADMISSION_PROXY_NAMESPACE" =? "" then
        getOperatorNameAndNamespace =
          Err ("unable to determine operator namespace. Error: " ++ nsErr ++
               " and ADMISSION_PROXY_NAMESPACE env var not set") /\
        forall (registrations : list (registration Handler)) st,
          registrations <> [] ->
          Start registrations st =
            (Some ("unable to determine operator namespace. Error: " ++
                   nsErr ++
                   " and ADMISSION_PROXY_NAMESPACE env var not set"), st)
      else
        getOperatorNameAndNamespace =
          Ok (Getenv "ADMISSION_PROXY_NAMESPACE", name)
  end.
Proof.
  intros Hname.
  destruct GetOperatorNamespace as [ns | nsErr] eqn:Hns.
  - unfold getOperatorNameAndNamespace. now rewrite Hname, Hns.
  - destruct (Getenv "ADMISSION_PROXY_NAMESPACE" =? "") eqn:Henv.
    + assert (Hres : getOperatorNameAndNamespace =
                Err ("unable to determine operator namespace. Error: " ++
                     nsErr ++
                     " and ADMISSION_PROXY_NAMESPACE env var not set")).
      { unfold getOperatorNameAndNamespace. now rewrite Hname, Hns, Henv. }
      split; [exact Hres |].
      intros registrations st Hne. now apply Start_identity_error.
    + unfold getOperatorNameAndNamespace. now rewrite Hname, Hns, Henv.
Qed.

(** C5, as the code has it: without registrations [Start] fails at
    once with its configuration error; with registrations, and once the
    operator identity, the webhook service and the certificates are
    there, the server has received the paths of the registrations, all
    of them, in their order, and nothing else, whatever the final
    deployment of the webhook configuration returns. *)
Theorem Start_registers_paths :
  (forall st : Server Handler * Cluster,
      Start [] st = (Some "no kind registered for validation", st)) /\
  (forall (registrations : list (registration Handler))
          (srv : Server Handler) (k k1 k2 : Cluster)
          (ns name : string) (c : certContext),
      registrations <> [] ->
      getOperatorNameAndNamespace = Ok (ns, name) ->
      deployWebhookService ns name servicePort k = (None, k1) ->
      getCertContext ns name k1 = (Ok c, k2) ->
      Start registrations (srv, k) =
        let (err, k3) :=
          deployValidatingWebhookConfiguration
            name ns registrations (signingCert c) k2 in
        (err,
         ({| CertDir := certDir c;
             Port := servicePort;
             registered :=
               (registered srv ++
                map (fun reg => (p reg, h reg)) registrations)%list |},
          k3))).
Proof.
  split; [reflexivity |].
  intros registrations srv k k1 k2 ns name c Hne Hid Hsvc Hcert.
  unfold Start. rewrite (Start_nonempty Hne), Hid.
  unfold bind, onCluster, onServer, modify. simpl.
  rewrite Hsvc. simpl. rewrite Hcert. simpl.
  rewrite registerAll_registered. simpl.
  destruct (deployValidatingWebhookConfiguration
              name ns registrations (signingCert c) k2) as [err k3].
  reflexivity.
Qed.

(** The early returns of [Start]: an error of one of the three steps
    before the server is configured is returned as it is, and no path
    is registered. *)
Lemma Start_early_errors (registrations : list (registration Handler))
  (srv : Server Handler) (k : Cluster) :
  registrations <> [] ->
  (forall err, getOperatorNameAndNamespace = Err err ->
     Start registrations (srv, k) = (Some err, (srv, k))) /\
  (forall ns name err k1,
     getOperatorNameAndNamespace = Ok (ns, name) ->
     deployWebhookService ns name servicePort k = (Some err, k1) ->
     Start registrations (srv, k) = (Some err, (srv, k1))) /\
  (forall ns name err k1 k2,
     getOperatorNameAndNamespace = Ok (ns, name) ->
     deployWebhookService ns name servicePort k = (None, k1) ->
     getCertContext ns name k1 = (Err err, k2) ->
     Start registrations (srv, k) = (Some err, (srv, k2))).
Proof.
  intros Hne. repeat split.
  - intros err Herr. now apply Start_identity_error.
  - intros ns name err k1 Hid Hsvc. unfold Start.
    rewrite (Start_nonempty Hne), Hid.
    unfold bind, onCluster. simpl. rewrite Hsvc. reflexivity.
  - intros ns name err k1 k2 Hid Hsvc Hcert. unfold Start.
    rewrite (Start_nonempty Hne), Hid.
    unfold bind, onCluster. simpl. rewrite Hsvc. simpl.
    rewrite Hcert. reflexivity.
Qed.

End StartProperties.

Lemma getOperatorNameAndNamespace_resolution_witness :
  @getOperatorNameAndNamespace
    (examplePlatform (Ok "spinnaker-operator") (Ok "spinnaker") "") =
    Ok ("spinnaker", "spinnaker-operator") /\
  @getOperatorNameAndNamespace
    (examplePlatform (Ok "spinnaker-operator")
       (Err "namespace not found for current environment") "proxy-ns") =
    Ok ("proxy-ns", "spinnaker-operator") /\
  @Start string byteRunes
    (examplePlatform (Ok "spinnaker-operator")
       (Err "namespace not found for current environment") "")
    accountRegistry (freshServer, []) =
    (Some ("unable to determine operator namespace. Error: " ++
           "namespace not found for current environment" ++
           " and ADMISSION_PROXY_NAMESPACE env var not set"),
     (freshServer, [])).
Proof.
  split; [| split].
  - exact (@getOperatorNameAndNamespace_resolution string byteRunes
             (examplePlatform (Ok "spinnaker-operator") (Ok "spinnaker") "")
             "spinnaker-operator" eq_refl).
  - exact (@getOperatorNameAndNamespace_resolution string byteRunes
             (examplePlatform (Ok "spinnaker-operator")
                (Err "namespace not found for current environment")
                "proxy-ns")
             "spinnaker-operator" eq_refl).
  - refine (proj2 (@getOperatorNameAndNamespace_resolution string byteRunes
                     (examplePlatform (Ok "spinnaker-operator")
                        (Err "namespace not found for current environment")
                        "")
                     "spinnaker-operator" eq_refl)
              accountRegistry (freshServer, []) _).
    discriminate.
Defined.

Lemma Start_registers_paths_witness :
  @Start string byteRunes
    (examplePlatform (Ok "spinnaker-operator") (Ok "spinnaker") "")
    accountRegistry (freshServer, []) =
  (None,
   ({| CertDir := "/tmp/k8s-webhook-server/serving-certs";
       Port := 9876;
       registered :=
         [("/validate-spinnaker-io-v1alpha2-spinnakeraccount",
           "accountValidatingController")] |},
    ["spinnaker-operator"; "spinnakervalidatingwebhook"])).
Proof.
  refine (proj2 (@Start_registers_paths string byteRunes
                   (examplePlatform (Ok "spinnaker-operator")
                      (Ok "spinnaker") ""))
            accountRegistry freshServer [] ["spinnaker-operator"]
            ["spinnaker-operator"] "spinnaker" "spinnaker-operator"
            {| certDir := "/tmp/k8s-webhook-server/serving-certs";
               signingCert := "ca-bundle" |}
            _ eq_refl eq_refl eq_refl).
  discriminate.
Defined.

(** C5, as the specification words it, fails: with one registration
    and an operator name that cannot be resolved, [Start] returns the
    error and the server has received no path. *)
Lemma Start_unresolved_name_registers_nothing :
  map fst
    (registered
       (fst (snd (@Start string byteRunes
                    (examplePlatform (Err "OPERATOR_NAME must be set")
                       (Ok "spinnaker") "")
                    accountRegistry (freshServer, []))))) <>
  map (@p string) accountRegistry.
Proof. vm_compute. discriminate. Qed.

(** ** The validating webhook configuration *)

Section ConfigurationProperties.
Variable Handler : Type.
Context {U : Unicode} {P : Platform}.

(** The loop appends to what is there and keeps the object's name. *)
Lemma append_webhooks (svcName ns cert : string)
  (registrations : list (registration Handler)) :
  forall config : ar_v1.ValidatingWebhookConfiguration,
    fold_left
      (fun webhookConfig reg =>
         {| ar_v1.ObjectMeta := ar_v1.ObjectMeta webhookConfig;
            ar_v1.Webhooks :=
              ar_v1.Webhooks webhookConfig ++
              [validatingWebhook svcName ns cert reg] |})
      registrations config =
    {| ar_v1.ObjectMeta := ar_v1.ObjectMeta config;
       ar_v1.Webhooks :=
         (ar_v1.Webhooks config ++
          map (validatingWebhook svcName ns cert) registrations)%list |}.
Proof.
  induction registrations as [| reg rest IH]; intros config.
  - simpl. rewrite app_nil_r. now destruct config.
  - simpl. rewrite IH. simpl. now rewrite <- app_assoc.
Qed.

(** C7: the configuration that is built and handed to the cluster has
    one webhook per registration, in the order of the registry.  The
    webhook of a registration is named
    [webhook-<resources>-<version>.<lowercased group>], the group with
    every capital letter replaced by its small letter; its client
    configuration is the service [svcName] in the namespace [ns] at the
    path of the registration, with the CA bundle; its only rule is for
    the operations create and update; its side effects are none. *)
Theorem validatingWebhookConfiguration_entries (svcName ns cert : string)
  (registrations : list (registration Handler)) :
  let config := validatingWebhookConfiguration svcName ns registrations cert in
  deployValidatingWebhookConfiguration svcName ns registrations cert =
    CreateOrUpdateValidatingWebhookConfiguration config /\
  metav1.Name (ar_v1.ObjectMeta config) = "spinnakervalidatingwebhook" /\
  metav1.Namespace (ar_v1.ObjectMeta config) = ns /\
  List.length (ar_v1.Webhooks config) = List.length registrations /\
  Forall2
    (fun reg hook =>
       ar_v1.webhookName hook =
         "webhook-" ++ r reg ++ "-" ++ Version (kind reg) ++ "." ++
         lowercased (Group (kind reg)) /\
       ar_v1.ClientConfig hook =
         {| ar_v1.Service :=
              Some {| ar_v1.Namespace := ns;
                      ar_v1.Name := svcName;
                      ar_v1.Path := Some (p reg) |};
            ar_v1.CABundle := cert |} /\
       map ar_v1.Operations (ar_v1.Rules hook) =
         [[ar_v1.Create; ar_v1.Update]] /\
       ar_v1.SideEffects hook = Some ar_v1.SideEffectClassNone)
    registrations (ar_v1.Webhooks config).
Proof.
  intros config.
  assert (Hhooks : ar_v1.Webhooks config =
                   map (validatingWebhook svcName ns cert) registrations).
  { unfold config, validatingWebhookConfiguration.
    now rewrite append_webhooks. }
  assert (Hmeta : ar_v1.ObjectMeta config =
                  {| metav1.Name := "spinnakervalidatingwebhook";
                     metav1.Namespace := ns;
                     metav1.Labels := [] |}).
  { unfold config, validatingWebhookConfiguration.
    now rewrite append_webhooks. }
  split; [reflexivity |].
  rewrite Hmeta, Hhooks, length_map.
  repeat split.
  clear. induction registrations as [| reg rest IH]; simpl.
  - constructor.
  - constructor; [| exact IH].
    split; [| repeat split].
    unfold validatingWebhook. cbn [ar_v1.webhookName].
    now rewrite ToLower_lowercased.
Qed.

End ConfigurationProperties.

Lemma validatingWebhookConfiguration_entries_witness :
  map ar_v1.webhookName
    (ar_v1.Webhooks
       (@validatingWebhookConfiguration string byteRunes
          "spinnaker-operator" "spinnaker" capitalRegistry "ca-bundle")) =
  ["webhook-spinnakeraccounts-v1alpha2.spinnaker.armory.io"].
Proof.
  destruct (@validatingWebhookConfiguration_entries string byteRunes
              (examplePlatform (Ok "spinnaker-operator") (Ok "spinnaker") "")
              "spinnaker-operator" "spinnaker" "ca-bundle" capitalRegistry)
    as [_ [_ [_ [_ Hhooks]]]].
  inversion Hhooks as [| reg hook regs hooks [Hname _] Hrest Hregs Hhook].
  exact (f_equal (fun name => [name]) Hname).
Defined.

(** ** The account admission handler *)

Section HandleProperties.
Context {C : Collaborators}.

Lemma isAccountRequest_identity (req : admission.Request) :
  isAccountRequest req = true <-> admission.Kind req = accountIdentity.
Proof.
  unfold isAccountRequest, accountIdentity.
  destruct (admission.Kind req) as [g ver k]. cbn [Group Version Kind].
  rewrite !andb_true_iff, !String.eqb_eq. split.
  - intros [[Hk Hg] Hv]. now subst.
  - intros H. injection H as Hg Hv Hk. now subst.
Qed.

Lemma isAccountRequest_other (req : admission.Request) :
  admission.Kind req <> accountIdentity -> isAccountRequest req = false.
Proof.
  intros Hne. destruct (isAccountRequest req) eqn:E; [| reflexivity].
  now apply isAccountRequest_identity in E.
Qed.

(** What [Handle] does on a request for accounts, step by step. *)
Lemma Handle_matched (v : accountValidatingController) (ctx : Context_)
  (req : admission.Request) (w : World) :
  isAccountRequest req = true ->
  let hello := LogInfo ("Handling admission request for: " ++
                        Kind (admission.Kind req)) in
  let decode := DecodeCall (admission.Object req) in
  Handle v ctx req w =
  match Decode req NewAccount with
  | Err err =>
      (admission.Errored http.StatusBadRequest err, logged w [hello; decode])
  | Ok acc =>
      let getType := GetTypeCall (GetSpecType acc) in
      match GetType (GetSpecType acc) with
      | Err err =>
          (admission.Errored http.StatusBadRequest err,
           logged w [hello; decode; getType])
      | Ok accType =>
          match FromCRD accType acc with
          | Err err =>
              (admission.Errored http.StatusBadRequest err,
               logged w [hello; decode; getType; FromCRDCall])
          | Ok spinAccount =>
              let id := nextContext w in
              (match Validate (NewValidator spinAccount) (client v) (Some id)
               with
               | Some err =>
                   admission.Errored http.StatusUnprocessableEntity err
               | None => admission.ValidationResponse true ""
               end,
               {| nextContext := S id;
                  liveContexts :=
                    List.remove Nat.eq_dec id (id :: liveContexts w);
                  trace :=
                    trace w ++
                    [hello; decode; getType; FromCRDCall;
                     NewContextCall id (GetNamespace acc);
                     ValidateCall (Some id); CleanupCall (Some id)] |})
          end
      end
  end.
Proof.
  intros Hm hello decode. destruct w as [next live events].
  unfold Handle. fold hello.
  cbv beta iota zeta
      delta [defer NewContext Cleanup call bind emit modify ret logged
             nextContext liveContexts trace].
  rewrite Hm. fold decode.
  destruct (Decode req NewAccount) as [acc | err].
  2: { now rewrite <- app_assoc. }
  destruct (GetType (GetSpecType acc)) as [accType | err].
  2: { now rewrite <- !app_assoc. }
  destruct (FromCRD accType acc) as [spinAccount | err].
  2: { now rewrite <- !app_assoc. }
  destruct (Validate _ _ _); rewrite <- !app_assoc; reflexivity.
Qed.

(** C1: a request whose kind is not the account identity (group,
    version and kind together) is allowed, with status 200 and no
    message, whatever its raw object is: the call is logged, and the
    decoder, the account types and the validator are not called. *)
Theorem Handle_unmatched_allows (v : accountValidatingController)
  (ctx : Context_) (req : admission.Request) (w : World) :
  admission.Kind req <> accountIdentity ->
  Handle v ctx req w =
    (admission.ValidationResponse true "",
     logged w [LogInfo ("Handling admission request for: " ++
                        Kind (admission.Kind req))]) /\
  admission.Allowed (fst (Handle v ctx req w)) = true /\
  admission.Result (fst (Handle v ctx req w)) =
    Some {| metav1.Code := 200; metav1.Message := ""; metav1.Reason := "" |} /\
  exists events,
    trace (snd (Handle v ctx req w)) = (trace w ++ events)%list /\
    filter isDecodeOrValidate events = [] /\
    acquisitions events = 0.
Proof.
  intros Hne. apply isAccountRequest_other in Hne.
  assert (E : Handle v ctx req w =
              (admission.ValidationResponse true "",
               logged w [LogInfo ("Handling admission request for: " ++
                                  Kind (admission.Kind req))])).
  { unfold Handle, bind, emit, modify, ret, logged. now rewrite Hne. }
  rewrite E. repeat split.
  eexists. repeat split.
Qed.

(** C4: when the raw object of a request for accounts cannot be
    decoded, the response is a denial with status 400 whose message is
    the text of the decode error; nothing is called after the
    decoder. *)
Theorem Handle_decode_error (v : accountValidatingController)
  (ctx : Context_) (req : admission.Request) (w : World) (err : error) :
  admission.Kind req = accountIdentity ->
  Decode req NewAccount = Err err ->
  Handle v ctx req w =
    (admission.Errored http.StatusBadRequest err,
     logged w [LogInfo ("Handling admission request for: " ++
                        Kind (admission.Kind req));
               DecodeCall (admission.Object req)]) /\
  admission.Allowed (fst (Handle v ctx req w)) = false /\
  admission.Result (fst (Handle v ctx req w)) =
    Some {| metav1.Code := 400; metav1.Message := err; metav1.Reason := "" |}.
Proof.
  intros Hm Hdec. apply isAccountRequest_identity in Hm.
  rewrite (@Handle_matched v ctx req w Hm), Hdec. repeat split.
Qed.

(** C2, as the code has it: on a decoded request for accounts, an
    account type that cannot be resolved and a conversion from the CRD
    that fails are denied with status 400, and an error of the
    validator is denied with status 422, each with the text of the
    error. *)
Theorem Handle_lookup_400_validation_422 (v : accountValidatingController)
  (ctx : Context_) (req : admission.Request) (w : World)
  (acc : SpinnakerAccount) :
  admission.Kind req = accountIdentity ->
  Decode req NewAccount = Ok acc ->
  fst (Handle v ctx req w) =
  match GetType (GetSpecType acc) with
  | Err err => admission.Errored 400 err
  | Ok accType =>
      match FromCRD accType acc with
      | Err err => admission.Errored 400 err
      | Ok spinAccount =>
          match Validate (NewValidator spinAccount) (client v)
                  (Some (nextContext w)) with
          | Some err => admission.Errored 422 err
          | None => admission.ValidationResponse true ""
          end
      end
  end.
Proof.
  intros Hm Hdec. apply isAccountRequest_identity in Hm.
  rewrite (@Handle_matched v ctx req w Hm), Hdec.
  destruct (GetType (GetSpecType acc)) as [accType | err]; [| reflexivity].
  destruct (FromCRD accType acc) as [spinAccount | err]; reflexivity.
Qed.

(** C8: on a request for accounts that reaches the validator, exactly
    one secret context is acquired, before the validator is called with
    it, and that context is released exactly once, after the validator
    has returned, be the outcome a denial with status 422 or an allow;
    no context acquired by the call is live afterwards. *)
Theorem Handle_releases_context_once (v : accountValidatingController)
  (ctx : Context_) (req : admission.Request) (w : World)
  (acc : SpinnakerAccount) (accType : AccountType) (spinAccount : Account) :
  admission.Kind req = accountIdentity ->
  Decode req NewAccount = Ok acc ->
  GetType (GetSpecType acc) = Ok accType ->
  FromCRD accType acc = Ok spinAccount ->
  ~ In (nextContext w) (liveContexts w) ->
  let id := nextContext w in
  let verdict := Validate (NewValidator spinAccount) (client v) (Some id) in
  let response := fst (Handle v ctx req w) in
  let w' := snd (Handle v ctx req w) in
  response =
    match verdict with
    | Some err => admission.Errored http.StatusUnprocessableEntity err
    | None => admission.ValidationResponse true ""
    end /\
  (verdict <> None ->
   admission.Allowed response = false /\
   option_map metav1.Code (admission.Result response) = Some 422%Z) /\
  (verdict = None -> admission.Allowed response = true) /\
  liveContexts w' = liveContexts w /\
  exists before,
    trace w' =
      (trace w ++ before ++
       [NewContextCall id (GetNamespace acc);
        ValidateCall (Some id);
        CleanupCall (Some id)])%list /\
    acquisitions before = 0 /\
    releases id before = 0 /\
    releases id
      (before ++
       [NewContextCall id (GetNamespace acc);
        ValidateCall (Some id);
        CleanupCall (Some id)]) = 1.
Proof.
  intros Hm Hdec Htype Hcrd Hfresh id verdict response w'.
  apply isAccountRequest_identity in Hm.
  unfold response, w'.
  rewrite (@Handle_matched v ctx req w Hm), Hdec, Htype, Hcrd.
  cbn [fst snd liveContexts trace]. fold id verdict.
  split; [reflexivity |]. split; [| split; [| split]].
  - destruct verdict; [intros _; split; reflexivity | congruence].
  - intros ->. reflexivity.
  - simpl. destruct (Nat.eq_dec id id) as [_ | Hn]; [| congruence].
    now apply notin_remove.
  - exists [LogInfo ("Handling admission request for: " ++
                     Kind (admission.Kind req));
            DecodeCall (admission.Object req);
            GetTypeCall (GetSpecType acc);
            FromCRDCall].
    split; [reflexivity |].
    unfold releases, acquisitions. simpl.
    rewrite Nat.eqb_refl. repeat split.
Qed.

End HandleProperties.

(** *** The handler on concrete requests *)

Lemma Handle_unmatched_allows_witness :
  admission.Allowed
    (fst (@Handle (exampleCollaborators None) (exampleController None) None
            (podRequest "{not json") emptyWorld)) = true /\
  trace
    (snd (@Handle (exampleCollaborators None) (exampleController None) None
            (podRequest "{not json") emptyWorld)) =
    [LogInfo "Handling admission request for: Pod"].
Proof.
  assert (Hne : admission.Kind (podRequest "{not json") <>
                @accountIdentity (exampleCollaborators None)).
  { vm_compute. discriminate. }
  destruct (@Handle_unmatched_allows (exampleCollaborators None)
              (exampleController None) None (podRequest "{not json")
              emptyWorld Hne) as [E [Hallowed _]].
  split; [exact Hallowed |].
  rewrite E. reflexivity.
Defined.

Lemma Handle_decode_error_witness :
  fst (@Handle (exampleCollaborators None) (exampleController None) None
         (accountRequest "") emptyWorld) =
  {| admission.Allowed := false;
     admission.Result :=
       Some {| metav1.Code := 400;
               metav1.Message := "there is no content to decode";
               metav1.Reason := "" |} |}.
Proof.
  destruct (@Handle_decode_error (exampleCollaborators None)
              (exampleController None) None (accountRequest "") emptyWorld
              "there is no content to decode" eq_refl eq_refl) as [E _].
  rewrite E. reflexivity.
Defined.

Lemma Handle_lookup_400_validation_422_witness :
  fst (@Handle (exampleCollaborators (Some "name must be non-empty"))
         (exampleController (Some "name must be non-empty")) None
         (accountRequest "Kubernetes") emptyWorld) =
  {| admission.Allowed := false;
     admission.Result :=
       Some {| metav1.Code := 422;
               metav1.Message := "name must be non-empty";
               metav1.Reason := "" |} |}.
Proof.
  exact (@Handle_lookup_400_validation_422
           (exampleCollaborators (Some "name must be non-empty"))
           (exampleController (Some "name must be non-empty")) None
           (accountRequest "Kubernetes") emptyWorld
           ("spinnaker", "Kubernetes") eq_refl eq_refl).
Defined.

(** C2, as the specification words it, fails: the type of the decoded
    account is not registered, the lookup of the type fails, and the
    denial carries status 400, not 422. *)
Lemma Handle_unresolved_type_not_422 :
  @GetType (exampleCollaborators None) "NoSuchType" =
    Err "no account type NoSuchType registered" /\
  fst (@Handle (exampleCollaborators None) (exampleController None) None
         (accountRequest "NoSuchType") emptyWorld) =
    admission.Errored 400 "no account type NoSuchType registered" /\
  option_map metav1.Code
    (admission.Result
       (fst (@Handle (exampleCollaborators None) (exampleController None) None
               (accountRequest "NoSuchType") emptyWorld))) <>
  Some http.StatusUnprocessableEntity.
Proof.
  split; [reflexivity |]. split; [reflexivity |].
  vm_compute. discriminate.
Qed.

Lemma Handle_releases_context_once_witness :
  let run verdict :=
    @Handle (exampleCollaborators verdict) (exampleController verdict) None
      (accountRequest "Kubernetes") emptyWorld in
  (option_map metav1.Code (admission.Result (fst (run (Some "bad secret")))) =
     Some 422%Z /\
   liveContexts (snd (run (Some "bad secret"))) = []) /\
  (admission.Allowed (fst (run None)) = true /\
   liveContexts (snd (run None)) = []).
Proof.
  intros run. split.
  - destruct (@Handle_releases_context_once
                (exampleCollaborators (Some "bad secret"))
                (exampleController (Some "bad secret")) None
                (accountRequest "Kubernetes") emptyWorld
                ("spinnaker", "Kubernetes") "Kubernetes" "Kubernetes"
                eq_refl eq_refl eq_refl eq_refl (fun H : False => H))
      as [_ [Hdeny [_ [Hlive _]]]].
    split; [| exact Hlive].
    apply Hdeny. discriminate.
  - destruct (@Handle_releases_context_once
                (exampleCollaborators None)
                (exampleController None) None
                (accountRequest "Kubernetes") emptyWorld
                ("spinnaker", "Kubernetes") "Kubernetes" "Kubernetes"
                eq_refl eq_refl eq_refl eq_refl (fun H : False => H))
      as [_ [_ [Hallow [Hlive _]]]].
    split; [| exact Hlive].
    apply Hallow. reflexivity.
Defined.

(** ** The string functions on the operator's own identities *)

Example Replace_account_group :
  @Replace byteRunes "spinnaker.armory.io" "." "-" (-1) = "spinnaker-armory-io".
Proof. reflexivity. Qed.

Example Replace_limited :
  @Replace byteRunes "a.b.c.d" "." "-" 2 = "a-b-c.d".
Proof. reflexivity. Qed.

Example Replace_longer_old :
  @Replace byteRunes "v1..v2...v3" ".." "/" (-1) = "v1/v2/.v3".
Proof. reflexivity. Qed.

Example ToLower_account_kind :
  @ToLower byteRunes "SpinnakerAccount" = "spinnakeraccount".
Proof. reflexivity. Qed.

Example generateValidatePath_account :
  @generateValidatePath byteRunes accountKind =
  "/validate-spinnaker-io-v1alpha2-spinnakeraccount".
Proof. reflexivity. Qed.

(* ================================================================== *)
(** * Further properties of the two files *)
(* ================================================================== *)

(** ** Paths that coincide, and identities that keep paths apart *)

Lemma string_app_assoc (a b c : string) : (a ++ b) ++ c = a ++ b ++ c.
Proof.
  induction a as [| x a IH]; simpl; [reflexivity | now rewrite IH].
Qed.

Lemma isUpperByte_lowerByte (c : ascii) : isUpperByte (lowerByte c) = false.
Proof.
  destruct c as [[] [] [] [] [] [] [] []]; reflexivity.
Qed.

Lemma isASCIIByte_lowerByte (c : ascii) :
  isASCIIByte (lowerByte c) = isASCIIByte c.
Proof.
  destruct c as [[] [] [] [] [] [] [] []]; reflexivity.
Qed.

Lemma lowerByte_dash (c : ascii) :
  Ascii.eqb (lowerByte c) "-"%char = Ascii.eqb c "-"%char.
Proof.
  destruct c as [[] [] [] [] [] [] [] []]; reflexivity.
Qed.

Lemma allBytes_ASCII_lower (s : string) :
  allBytes isASCIIByte (mapBytes lowerByte s) = allBytes isASCIIByte s.
Proof.
  induction s as [| c s IH]; simpl; [reflexivity |].
  now rewrite isASCIIByte_lowerByte, IH.
Qed.

Lemma anyByte_upper_lower (s : string) :
  anyByte isUpperByte (mapBytes lowerByte s) = false.
Proof.
  induction s as [| c s IH]; simpl; [reflexivity |].
  now rewrite isUpperByte_lowerByte, IH.
Qed.

Lemma dashFree_lower (s : string) :
  dashFree (mapBytes lowerByte s) = dashFree s.
Proof.
  unfold dashFree. induction s as [| c s IH]; simpl; [reflexivity |].
  now rewrite lowerByte_dash, IH.
Qed.

Lemma dotsAsDashes_idempotent (s : string) :
  dotsAsDashes (dotsAsDashes s) = dotsAsDashes s.
Proof.
  unfold dotsAsDashes. induction s as [| c s IH]; simpl; [reflexivity |].
  rewrite IH. f_equal.
  destruct (Ascii.eqb_spec c "."%char); [reflexivity |].
  destruct (Ascii.eqb_spec c "."%char); [contradiction | reflexivity].
Qed.

(** Dots become dashes injectively on text that has no dash. *)
Lemma dotsAsDashes_injective (s : string) : forall t,
  dashFree s = true -> dashFree t = true ->
  dotsAsDashes s = dotsAsDashes t -> s = t.
Proof.
  unfold dashFree, dotsAsDashes.
  induction s as [| c s IH]; intros [| d t] Hs Ht E; simpl in *;
    try discriminate; [reflexivity |].
  apply andb_true_iff in Hs as [Hc Hs].
  apply andb_true_iff in Ht as [Hd Ht].
  injection E as Ehead Etail.
  f_equal; [| now apply IH].
  destruct (Ascii.eqb_spec c "."%char) as [-> | Hc'];
    destruct (Ascii.eqb_spec d "."%char) as [-> | Hd']; try reflexivity.
  - subst d. discriminate.
  - subst c. discriminate.
  - exact Ehead.
Qed.

(** A text is cut at its last dash in one way only. *)
Lemma cut_at_last_dash (a : string) : forall a' b b',
  dashFree b = true -> dashFree b' = true ->
  a ++ String "-"%char b = a' ++ String "-"%char b' ->
  a = a' /\ b = b'.
Proof.
  assert (Hdash : forall x y, dashFree (x ++ String "-"%char y) = false).
  { intros x y. unfold dashFree.
    induction x as [| c x IHx]; simpl; [reflexivity |].
    rewrite IHx. apply andb_false_r. }
  induction a as [| c a IH]; intros [| c' a'] b b' Hb Hb' E; simpl in E.
  - injection E as E. now subst.
  - injection E as Ec E. subst b. now rewrite Hdash in Hb.
  - injection E as Ec E. subst b'. now rewrite Hdash in Hb'.
  - injection E as Ec E. subst c'.
    destruct (IH a' b b' Hb Hb' E) as [-> ->]. now split.
Qed.

Lemma regroup_path (g v k : string) :
  g ++ "-" ++ v ++ "-" ++ k = (g ++ String "-"%char v) ++ String "-"%char k.
Proof.
  rewrite string_app_assoc. reflexivity.
Qed.

Section PathCollisions.
Context {U : Unicode}.

Lemma ToLower_ASCII (s : string) :
  allBytes isASCIIByte s = true ->
  ToLower s = mapBytes lowerByte s.
Proof.
  intros Hs. unfold ToLower. rewrite Hs.
  destruct (anyByte isUpperByte s) eqn:E; [reflexivity |].
  induction s as [| c s IH]; [reflexivity |].
  simpl in *. apply andb_true_iff in Hs as [_ Hs].
  apply orb_false_iff in E as [Ec E].
  unfold lowerByte. rewrite Ec. f_equal. now apply IH.
Qed.

Lemma ToLower_ASCII_idempotent (s : string) :
  allBytes isASCIIByte s = true ->
  ToLower (ToLower s) = ToLower s.
Proof.
  intros Hs. rewrite (ToLower_ASCII s Hs).
  unfold ToLower at 1.
  now rewrite allBytes_ASCII_lower, Hs, anyByte_upper_lower.
Qed.

(** The path does not tell a dot of the group from a dash: an identity
    and the identity with the dots of its group written as dashes have
    the same path.  So the generator is not injective: two different
    identities share a path. *)
Theorem generateValidatePath_dots_collide :
  (forall gvk,
      generateValidatePath
        {| Group := dotsAsDashes (Group gvk);
           Version := Version gvk;
           Kind := Kind gvk |} =
      generateValidatePath gvk) /\
  (exists a b : GroupVersionKind,
      a <> b /\ generateValidatePath a = generateValidatePath b).
Proof.
  split.
  - intros gvk. unfold generateValidatePath. simpl.
    now rewrite !Replace_dots, dotsAsDashes_idempotent.
  - exists {| Group := "spinnaker.io"; Version := "v1"; Kind := "Pipeline" |},
           {| Group := "spinnaker-io"; Version := "v1"; Kind := "Pipeline" |}.
    split; [discriminate | reflexivity].
Qed.

(** The path does not tell the ASCII letter case of the kind: an
    identity and the identity with its ASCII kind lowercased have the
    same path. *)
Theorem generateValidatePath_kind_case (gvk : GroupVersionKind) :
  allBytes isASCIIByte (Kind gvk) = true ->
  generateValidatePath
    {| Group := Group gvk;
       Version := Version gvk;
       Kind := mapBytes lowerByte (Kind gvk) |} =
  generateValidatePath gvk.
Proof.
  intros Hk. unfold generateValidatePath. simpl.
  rewrite <- (ToLower_ASCII _ Hk).
  now rewrite (ToLower_ASCII_idempotent _ Hk).
Qed.

(** Where no group, version or kind has a dash and the kinds are ASCII,
    equal paths mean equal groups, equal versions, and kinds that are
    equal once lowercased: among such identities only the letter case
    of the kind can make two paths collide. *)
Theorem generateValidatePath_injective_dash_free (a b : GroupVersionKind) :
  dashFree (Group a) = true -> dashFree (Group b) = true ->
  dashFree (Version a) = true -> dashFree (Version b) = true ->
  dashFree (Kind a) = true -> dashFree (Kind b) = true ->
  allBytes isASCIIByte (Kind a) = true ->
  allBytes isASCIIByte (Kind b) = true ->
  generateValidatePath a = generateValidatePath b ->
  Group a = Group b /\ Version a = Version b /\
  ToLower (Kind a) = ToLower (Kind b).
Proof.
  intros Hga Hgb Hva Hvb Hka Hkb Haa Hab E.
  unfold generateValidatePath in E. rewrite !Replace_dots in E.
  assert (Hla : dashFree (ToLower (Kind a)) = true)
    by now rewrite (ToLower_ASCII _ Haa), dashFree_lower.
  assert (Hlb : dashFree (ToLower (Kind b)) = true)
    by now rewrite (ToLower_ASCII _ Hab), dashFree_lower.
  assert (E' : dotsAsDashes (Group a) ++ "-" ++ Version a ++ "-" ++
               ToLower (Kind a) =
               dotsAsDashes (Group b) ++ "-" ++ Version b ++ "-" ++
               ToLower (Kind b)).
  { simpl in E. now injection E. }
  clear E.
  rewrite !regroup_path in E'.
  apply cut_at_last_dash in E' as [E' Ek]; [| assumption | assumption].
  apply cut_at_last_dash in E' as [Eg Ev]; [| assumption | assumption].
  repeat split; [| assumption | assumption].
  now apply dotsAsDashes_injective.
Qed.

End PathCollisions.

Lemma generateValidatePath_kind_case_witness :
  @generateValidatePath byteRunes
    {| Group := "spinnaker.io"; Version := "v1alpha2";
       Kind := "spinnakeraccount" |} =
  @generateValidatePath byteRunes accountKind.
Proof.
  exact (@generateValidatePath_kind_case byteRunes accountKind eq_refl).
Defined.

Lemma generateValidatePath_injective_dash_free_witness :
  Group accountKind = "spinnaker.io" /\
  Version accountKind = "v1alpha2" /\
  @ToLower byteRunes (Kind accountKind) = "spinnakeraccount".
Proof.
  exact (@generateValidatePath_injective_dash_free byteRunes accountKind
           {| Group := "spinnaker.io"; Version := "v1alpha2";
              Kind := "SPINNAKERACCOUNT" |}
           eq_refl eq_refl eq_refl eq_refl eq_refl eq_refl eq_refl eq_refl
           eq_refl).
Defined.

(** ** Operator identity, the registry and [Start], end to end *)

Section StartFurther.
Variable Handler : Type.
Context {U : Unicode} {P : Platform}.

(** Identity resolution succeeds exactly when the operator name
    resolves and a namespace is known, from the platform or from a
    non-empty ADMISSION_PROXY_NAMESPACE; an error of the name lookup is
    returned as it is, whatever the namespace and the variable are. *)
Theorem getOperatorNameAndNamespace_succeeds_iff :
  ((exists ns name, getOperatorNameAndNamespace = Ok (ns, name)) <->
   (exists name, GetOperatorName = Ok name) /\
   ((exists ns, GetOperatorNamespace = Ok ns) \/
    Getenv "ADMISSION_PROXY_NAMESPACE" <> "")) /\
  (forall ns name,
      getOperatorNameAndNamespace = Ok (ns, name) ->
      GetOperatorName = Ok name) /\
  (forall err,
      GetOperatorName = Err err -> getOperatorNameAndNamespace = Err err).
Proof.
  unfold getOperatorNameAndNamespace.
  destruct GetOperatorName as [name | nameErr];
    destruct GetOperatorNamespace as [ns | nsErr];
    destruct (String.eqb_spec (Getenv "ADMISSION_PROXY_NAMESPACE") "")
      as [Henv | Henv];
    (split; [split | split]).
  all: try (intros [ns' [name' E]];
            first [ discriminate E
                  | split; [now eauto
                           | first [left; now eauto | right; assumption]] ]).
  all: try (intros [[name' En] Hor];
            first [ discriminate En
                  | now eauto
                  | destruct Hor as [[ns' Hns] | Hne];
                    [discriminate Hns | contradiction] ]).
  all: try (intros ns' name' E;
            first [discriminate E | injection E as _ ->; reflexivity]).
  all: intros err E;
    first [discriminate E | injection E as ->; reflexivity].
Qed.

(** [Start], one case per way out. *)
Lemma Start_cases (registrations : list (registration Handler))
  (srv : Server Handler) (k : Cluster) :
  Start registrations (srv, k) =
  match registrations with
  | [] => (Some "no kind registered for validation", (srv, k))
  | _ :: _ =>
      match getOperatorNameAndNamespace with
      | Err err => (Some err, (srv, k))
      | Ok (ns, name) =>
          match deployWebhookService ns name servicePort k with
          | (Some err, k1) => (Some err, (srv, k1))
          | (None, k1) =>
              match getCertContext ns name k1 with
              | (Err err, k2) => (Some err, (srv, k2))
              | (Ok c, k2) =>
                  let (err, k3) :=
                    deployValidatingWebhookConfiguration
                      name ns registrations (signingCert c) k2 in
                  (err,
                   ({| CertDir := certDir c;
                       Port := servicePort;
                       registered :=
                         (registered srv ++
                          map (fun reg => (p reg, h reg)) registrations)%list |},
                    k3))
              end
          end
      end
  end.
Proof.
  destruct registrations as [| reg rest]; [reflexivity |].
  unfold Start.
  change (List.length (reg :: rest) =? 0)%nat with false.
  cbv beta iota.
  destruct getOperatorNameAndNamespace as [[ns name] | err]; [| reflexivity].
  unfold bind, onCluster, onServer, modify. cbn [fst snd].
  destruct (deployWebhookService ns name servicePort k) as [[err |] k1];
    [reflexivity |].
  cbn [fst snd].
  destruct (getCertContext ns name k1) as [[c | err] k2]; [| reflexivity].
  cbn [fst snd]. rewrite registerAll_registered.
  cbn [fst snd CertDir Port registered].
  destruct (deployValidatingWebhookConfiguration
              name ns (reg :: rest) (signingCert c) k2) as [err k3].
  reflexivity.
Qed.

(** When [Start] returns no error, the server has all the paths. *)
Lemma Start_ok_registered (registrations : list (registration Handler))
  (srv : Server Handler) (k : Cluster) :
  fst (Start registrations (srv, k)) = None ->
  registered (fst (snd (Start registrations (srv, k)))) =
  (registered srv ++ map (fun reg => (p reg, h reg)) registrations)%list.
Proof.
  rewrite Start_cases.
  destruct registrations as [| reg rest]; [discriminate |].
  destruct getOperatorNameAndNamespace as [[ns name] | err]; [| discriminate].
  destruct (deployWebhookService ns name servicePort k) as [[err |] k1];
    [discriminate |].
  destruct (getCertContext ns name k1) as [[c | err] k2]; [| discriminate].
  destruct (deployValidatingWebhookConfiguration
              name ns (reg :: rest) (signingCert c) k2) as [err k3].
  reflexivity.
Qed.

(** [Start] configures the server wholly or not at all: afterwards the
    server is as it was, or it has the port of the service and the
    paths of all registrations; and when [Start] returns no error, it
    is the latter and the registry was not empty. *)
Theorem Start_all_or_nothing (registrations : list (registration Handler))
  (srv : Server Handler) (k : Cluster) :
  let result := Start registrations (srv, k) in
  let srv' := fst (snd result) in
  (srv' = srv /\ fst result <> None \/
   Port srv' = servicePort /\
   registered srv' =
     (registered srv ++ map (fun reg => (p reg, h reg)) registrations)%list) /\
  (fst result = None ->
   registrations <> [] /\
   Port srv' = servicePort /\
   registered srv' =
     (registered srv ++ map (fun reg => (p reg, h reg)) registrations)%list).
Proof.
  cbv zeta. rewrite Start_cases.
  destruct registrations as [| reg rest].
  { split; [left; split; [reflexivity | discriminate] | discriminate]. }
  destruct getOperatorNameAndNamespace as [[ns name] | err].
  2: { split; [left; split; [reflexivity | discriminate] | discriminate]. }
  destruct (deployWebhookService ns name servicePort k) as [[err |] k1].
  { split; [left; split; [reflexivity | discriminate] | discriminate]. }
  destruct (getCertContext ns name k1) as [[c | err] k2].
  2: { split; [left; split; [reflexivity | discriminate] | discriminate]. }
  destruct (deployValidatingWebhookConfiguration
              name ns (reg :: rest) (signingCert c) k2) as [err k3].
  simpl. split; [right; split; reflexivity |].
  intros _. split; [discriminate | split; reflexivity].
Qed.

(** What [Register] stored is what comes back: the registry lists the
    kinds, resource names and handlers of the calls, in the order of the
    calls, and its paths are the paths of those kinds. *)
Theorem registryAfter_round_trip (calls : list (RegisterCall Handler)) :
  map (fun reg => (kind reg, r reg, h reg)) (registryAfter calls) = calls /\
  map (@p Handler) (registryAfter calls) =
  map (fun c => generateValidatePath (fst (fst c))) calls.
Proof.
  induction calls as [| [[gvk resources] hd] calls [IHc IHp]] using rev_ind.
  - split; reflexivity.
  - rewrite registryAfter_snoc. unfold Register.
    rewrite !map_app, IHc, IHp. split; reflexivity.
Qed.

(** From [Register] to the server: when [Start] gets through on the
    registry that a sequence of [Register] calls built, a
    fresh server has received, in the order of the calls, the generated
    path of each registered kind with the handler registered for it. *)
Theorem Register_then_Start_serves (calls : list (RegisterCall Handler))
  (srv : Server Handler) (k : Cluster) :
  registered srv = [] ->
  fst (Start (registryAfter calls) (srv, k)) = None ->
  registered (fst (snd (Start (registryAfter calls) (srv, k)))) =
  map (fun c => (generateValidatePath (fst (fst c)), snd c)) calls.
Proof.
  intros Hfresh Hok.
  rewrite (Start_ok_registered _ _ _ Hok), Hfresh. simpl.
  clear. induction calls as [| [[gvk resources] hd] calls IH] using rev_ind.
  - reflexivity.
  - rewrite registryAfter_snoc. unfold Register.
    rewrite !map_app, IH. reflexivity.
Qed.

End StartFurther.

Lemma getOperatorNameAndNamespace_succeeds_iff_witness :
  @getOperatorNameAndNamespace
    (examplePlatform (Err "OPERATOR_NAME must be set") (Ok "spinnaker")
       "proxy-ns") =
  Err "OPERATOR_NAME must be set".
Proof.
  exact (proj2 (proj2 (@getOperatorNameAndNamespace_succeeds_iff
                         (examplePlatform (Err "OPERATOR_NAME must be set")
                            (Ok "spinnaker") "proxy-ns")))
           "OPERATOR_NAME must be set" eq_refl).
Defined.

Lemma Start_all_or_nothing_witness :
  accountRegistry <> [] /\
  Port (fst (snd (@Start string byteRunes
                    (examplePlatform (Ok "spinnaker-operator")
                       (Ok "spinnaker") "")
                    accountRegistry (freshServer, [])))) = 9876%Z /\
  registered
    (fst (snd (@Start string byteRunes
                 (examplePlatform (Ok "spinnaker-operator")
                    (Ok "spinnaker") "")
                 accountRegistry (freshServer, [])))) =
  [("/validate-spinnaker-io-v1alpha2-spinnakeraccount",
    "accountValidatingController")].
Proof.
  exact (proj2 (@Start_all_or_nothing string byteRunes
                  (examplePlatform (Ok "spinnaker-operator")
                     (Ok "spinnaker") "")
                  accountRegistry freshServer [])
           eq_refl).
Defined.

Lemma Register_then_Start_serves_witness :
  registered
    (fst (snd (@Start string byteRunes
                 (examplePlatform (Ok "spinnaker-operator")
                    (Ok "spinnaker") "")
                 (@registryAfter string byteRunes
                    [(accountKind, "spinnakeraccounts", "accounts");
                     (podKind, "pods", "pods")])
                 (freshServer, [])))) =
  [("/validate-spinnaker-io-v1alpha2-spinnakeraccount", "accounts");
   ("/validate--v1-pod", "pods")].
Proof.
  exact (@Register_then_Start_serves string byteRunes
           (examplePlatform (Ok "spinnaker-operator") (Ok "spinnaker") "")
           [(accountKind, "spinnakeraccounts", "accounts");
            (podKind, "pods", "pods")]
           freshServer [] eq_refl eq_refl).
Defined.

Lemma Start_early_errors_witness :
  @Start string byteRunes
    (examplePlatform (Err "OPERATOR_NAME must be set") (Ok "spinnaker") "")
    accountRegistry (freshServer, []) =
  (Some "OPERATOR_NAME must be set", (freshServer, [])).
Proof.
  refine (proj1 (@Start_early_errors string byteRunes
                   (examplePlatform (Err "OPERATOR_NAME must be set")
                      (Ok "spinnaker") "")
                   accountRegistry freshServer [] _)
            "OPERATOR_NAME must be set" eq_refl).
  discriminate.
Defined.

(** ** The configuration, the service and the server agree *)

Section ConfigurationFurther.
Variable Handler : Type.
Context {U : Unicode} {P : Platform}.

Lemma configuration_webhooks (svcName ns cert : string)
  (registrations : list (registration Handler)) :
  ar_v1.Webhooks (validatingWebhookConfiguration svcName ns registrations cert)
  = map (validatingWebhook svcName ns cert) registrations.
Proof.
  unfold validatingWebhookConfiguration. now rewrite append_webhooks.
Qed.

(** The paths that the configuration advertises are the paths that the
    loop of [Start] registers on the server, one for one and in the
    same order. *)
Theorem advertised_paths_are_served (svcName ns cert : string)
  (registrations : list (registration Handler)) (s : Server Handler) :
  map (fun entry => Some (fst entry))
    (registered (snd (registerAll registrations s))) =
  (map (fun entry => Some (fst entry)) (registered s) ++
   map advertisedPath
     (ar_v1.Webhooks
        (validatingWebhookConfiguration svcName ns registrations cert)))%list.
Proof.
  rewrite registerAll_registered, configuration_webhooks. simpl.
  rewrite map_app, !map_map. reflexivity.
Qed.

(** Once the operator identity is resolved, [Start] deploys a service
    named after the operator, in the operator's namespace, that selects
    the operator's pods and maps port 443 to the port the webhook
    server is given; and every webhook of the configuration it deploys
    afterwards calls that service, in that namespace, with the signing
    certificate of the certificate context as CA bundle. *)
Theorem Start_webhooks_call_deployed_service
  (registrations : list (registration Handler))
  (srv : Server Handler) (k : Cluster) (ns name : string) :
  registrations <> [] ->
  getOperatorNameAndNamespace = Ok (ns, name) ->
  exists (service : v1.Service)
         (config : certContext -> ar_v1.ValidatingWebhookConfiguration),
    Start registrations (srv, k) =
      match CreateOrUpdateService service k with
      | (Some err, k1) => (Some err, (srv, k1))
      | (None, k1) =>
          match getCertContext ns name k1 with
          | (Err err, k2) => (Some err, (srv, k2))
          | (Ok c, k2) =>
              let (err, k3) :=
                CreateOrUpdateValidatingWebhookConfiguration (config c) k2 in
              (err,
               ({| CertDir := certDir c;
                   Port := servicePort;
                   registered :=
                     (registered srv ++
                      map (fun reg => (p reg, h reg)) registrations)%list |},
                k3))
          end
      end /\
    metav1.Name (v1.ObjectMeta service) = name /\
    metav1.Namespace (v1.ObjectMeta service) = ns /\
    v1.Selector service = [("name", name)] /\
    map (fun port => (v1.Port port, v1.TargetPort port)) (v1.Ports service) =
      [(443%Z, servicePort)] /\
    forall c,
      metav1.Namespace (ar_v1.ObjectMeta (config c)) = ns /\
      Forall
        (fun hook =>
           exists ref,
             ar_v1.Service (ar_v1.ClientConfig hook) = Some ref /\
             ar_v1.Name ref = metav1.Name (v1.ObjectMeta service) /\
             ar_v1.Namespace ref = metav1.Namespace (v1.ObjectMeta service) /\
             ar_v1.CABundle (ar_v1.ClientConfig hook) = signingCert c)
        (ar_v1.Webhooks (config c)).
Proof.
  intros Hne Hid.
  exists (webhookService ns name servicePort),
         (fun c => validatingWebhookConfiguration
                     name ns registrations (signingCert c)).
  split.
  - rewrite Start_cases, Hid.
    destruct registrations as [| reg rest]; [congruence | reflexivity].
  - repeat split.
    + unfold validatingWebhookConfiguration. now rewrite append_webhooks.
    + rewrite configuration_webhooks. apply Forall_forall.
      intros hook Hin. apply in_map_iff in Hin as [reg [<- _]].
      eexists. repeat split.
Qed.

(** Every webhook of the configuration has a single rule, for the
    group, the version and the resource name of its registration as
    they were registered (the group with its dots), and accepts the
    review versions v1beta1 and v1; no webhook is called on a delete or
    a connect. *)
Theorem validatingWebhookConfiguration_rules (svcName ns cert : string)
  (registrations : list (registration Handler)) :
  let hooks :=
    ar_v1.Webhooks
      (validatingWebhookConfiguration svcName ns registrations cert) in
  Forall2
    (fun reg hook =>
       map ar_v1.rule (ar_v1.Rules hook) =
         [ {| ar_v1.APIGroups := [Group (kind reg)];
              ar_v1.APIVersions := [Version (kind reg)];
              ar_v1.Resources := [r reg] |} ] /\
       ar_v1.AdmissionReviewVersions hook = ["v1beta1"; "v1"])
    registrations hooks /\
  Forall
    (fun hook =>
       Forall
         (fun rule =>
            ~ In ar_v1.Delete (ar_v1.Operations rule) /\
            ~ In ar_v1.Connect (ar_v1.Operations rule))
         (ar_v1.Rules hook))
    hooks.
Proof.
  cbv zeta. rewrite configuration_webhooks. split.
  - induction registrations as [| reg rest IH]; simpl; constructor.
    + split; reflexivity.
    + exact IH.
  - apply Forall_forall. intros hook Hin.
    apply in_map_iff in Hin as [reg [<- _]].
    simpl. constructor; [| constructor].
    split; simpl; intros [H | [H | []]]; discriminate.
Qed.

End ConfigurationFurther.

Lemma Start_webhooks_call_deployed_service_witness :
  exists service : v1.Service,
    metav1.Name (v1.ObjectMeta service) = "spinnaker-operator" /\
    metav1.Namespace (v1.ObjectMeta service) = "spinnaker" /\
    map (fun port => (v1.Port port, v1.TargetPort port)) (v1.Ports service) =
      [(443%Z, 9876%Z)].
Proof.
  destruct (@Start_webhooks_call_deployed_service string byteRunes
              (examplePlatform (Ok "spinnaker-operator") (Ok "spinnaker") "")
              accountRegistry freshServer [] "spinnaker" "spinnaker-operator")
    as [service [config [_ [Hname [Hns [_ [Hports _]]]]]]].
  - discriminate.
  - reflexivity.
  - exists service. repeat split; assumption.
Defined.

(** ** The handler on every path *)

Section HandleFurther.
Context {C : Collaborators}.

Lemma Handle_other (v : accountValidatingController) (ctx : Context_)
  (req : admission.Request) (w : World) :
  isAccountRequest req = false ->
  Handle v ctx req w =
  (admission.ValidationResponse true "",
   logged w [LogInfo ("Handling admission request for: " ++
                      Kind (admission.Kind req))]).
Proof.
  intros Hm. unfold Handle, bind, emit, modify, ret, logged.
  now rewrite Hm.
Qed.

(** The two shapes of the world after [Handle]: calls that leave the
    secret contexts alone, followed or not by one acquire, validate,
    release round on the fresh context. *)
Lemma Handle_world (v : accountValidatingController) (ctx : Context_)
  (req : admission.Request) (w : World) :
  exists events,
    filter isNewContext events = [] /\
    filter isCleanup events = [] /\
    filter isValidate events = [] /\
    (snd (Handle v ctx req w) = logged w events \/
     exists namespace,
       snd (Handle v ctx req w) =
       {| nextContext := S (nextContext w);
          liveContexts :=
            List.remove Nat.eq_dec (nextContext w)
              (nextContext w :: liveContexts w);
          trace :=
            (trace w ++ events ++
             [NewContextCall (nextContext w) namespace;
              ValidateCall (Some (nextContext w));
              CleanupCall (Some (nextContext w))])%list |}).
Proof.
  destruct (isAccountRequest req) eqn:Hm.
  - rewrite (@Handle_matched _ v ctx req w Hm).
    destruct (Decode req NewAccount) as [acc | err].
    2: { eexists; split; [| split; [| split; [| left; reflexivity]]];
         reflexivity. }
    destruct (GetType (GetSpecType acc)) as [accType | err].
    2: { eexists; split; [| split; [| split; [| left; reflexivity]]];
         reflexivity. }
    destruct (FromCRD accType acc) as [spinAccount | err].
    2: { eexists; split; [| split; [| split; [| left; reflexivity]]];
         reflexivity. }
    exists [LogInfo ("Handling admission request for: " ++
                     Kind (admission.Kind req));
            DecodeCall (admission.Object req);
            GetTypeCall (GetSpecType acc);
            FromCRDCall].
    repeat split. right. exists (GetNamespace acc). reflexivity.
  - rewrite (@Handle_other v ctx req w Hm).
    eexists; split; [| split; [| split; [| left; reflexivity]]];
         reflexivity.
Qed.

Lemma fresh_not_live (w : World) :
  freshNext w -> ~ In (nextContext w) (liveContexts w).
Proof.
  unfold freshNext. intros Hf Hin.
  rewrite Forall_forall in Hf. apply Hf in Hin. lia.
Qed.

(** Every response of [Handle] carries a status: an allow has code 200
    and no message, a denial has code 400 or 422.  No other code
    leaves the handler. *)
Theorem Handle_response_shape (v : accountValidatingController)
  (ctx : Context_) (req : admission.Request) (w : World) :
  let response := fst (Handle v ctx req w) in
  exists code message,
    admission.Result response =
      Some {| metav1.Code := code;
              metav1.Message := message;
              metav1.Reason := "" |} /\
    (admission.Allowed response = true /\ code = 200%Z /\ message = "" \/
     admission.Allowed response = false /\ (code = 400%Z \/ code = 422%Z)).
Proof.
  cbv zeta. destruct (isAccountRequest req) eqn:Hm.
  - rewrite (@Handle_matched _ v ctx req w Hm).
    destruct (Decode req NewAccount) as [acc | err].
    2: { do 2 eexists. split; [reflexivity |]. right. split; [| left]; reflexivity. }
    destruct (GetType (GetSpecType acc)) as [accType | err].
    2: { do 2 eexists. split; [reflexivity |]. right. split; [| left]; reflexivity. }
    destruct (FromCRD accType acc) as [spinAccount | err].
    2: { do 2 eexists. split; [reflexivity |]. right. split; [| left]; reflexivity. }
    cbn [fst].
    destruct (Validate _ _ _) as [err |].
    + do 2 eexists. split; [reflexivity |]. right. split; [| right]; reflexivity.
    + do 2 eexists. split; [reflexivity |]. left. repeat split.
  - rewrite (@Handle_other v ctx req w Hm).
    do 2 eexists. split; [reflexivity |]. left. repeat split.
Qed.

(** [Handle] allows a request in two cases only: the request is not
    for accounts, or decoding, the lookup of the account type, the
    conversion and the validation have all succeeded.  A failure of a
    step never turns into an allow. *)
Theorem Handle_allows_iff (v : accountValidatingController)
  (ctx : Context_) (req : admission.Request) (w : World) :
  admission.Allowed (fst (Handle v ctx req w)) = true <->
  isAccountRequest req = false \/
  exists acc accType spinAccount,
    Decode req NewAccount = Ok acc /\
    GetType (GetSpecType acc) = Ok accType /\
    FromCRD accType acc = Ok spinAccount /\
    Validate (NewValidator spinAccount) (client v) (Some (nextContext w)) =
      None.
Proof.
  destruct (isAccountRequest req) eqn:Hm.
  - rewrite (@Handle_matched _ v ctx req w Hm).
    destruct (Decode req NewAccount) as [acc | err] eqn:Hdec.
    2: { split; [discriminate |].
         intros [H | [acc [t [sa [H _]]]]]; discriminate. }
    destruct (GetType (GetSpecType acc)) as [accType | err] eqn:Htype.
    2: { split; [discriminate |].
         intros [H | [acc' [t [sa [Hd [Ht _]]]]]]; [discriminate |].
         injection Hd as <-. rewrite Htype in Ht. discriminate. }
    destruct (FromCRD accType acc) as [spinAccount | err] eqn:Hcrd.
    2: { split; [discriminate |].
         intros [H | [acc' [t [sa [Hd [Ht [Hc _]]]]]]]; [discriminate |].
         injection Hd as <-. rewrite Htype in Ht. injection Ht as <-.
         rewrite Hcrd in Hc. discriminate. }
    cbn [fst].
    destruct (Validate (NewValidator spinAccount) (client v)
                (Some (nextContext w))) as [err |] eqn:Hval.
    + split; [discriminate |].
      intros [H | [acc' [t [sa [Hd [Ht [Hc Hv]]]]]]]; [discriminate |].
      injection Hd as <-. rewrite Htype in Ht. injection Ht as <-.
      rewrite Hcrd in Hc. injection Hc as <-.
      rewrite Hval in Hv. discriminate.
    + split; [| reflexivity].
      intros _. right. exists acc, accType, spinAccount. now repeat split.
  - rewrite (@Handle_other v ctx req w Hm). split; [now left | reflexivity].
Qed.

(** On every path through [Handle], from a world whose next context is
    fresh: the trace only grows; as many contexts are acquired as are
    released, and as many as the validator is called, at most one; the
    live contexts are afterwards what they were; and the next context
    is fresh again. *)
Theorem Handle_balanced (v : accountValidatingController)
  (ctx : Context_) (req : admission.Request) (w : World) :
  freshNext w ->
  let w' := snd (Handle v ctx req w) in
  (exists events,
      trace w' = (trace w ++ events)%list /\
      acquisitions events = cleanups events /\
      acquisitions events = validations events /\
      acquisitions events <= 1) /\
  liveContexts w' = liveContexts w /\
  freshNext w'.
Proof.
  intros Hfresh. cbv zeta.
  destruct (Handle_world v ctx req w)
    as [events [Hnew [Hclean [Hval [-> | [namespace ->]]]]]].
  - split; [| split; [reflexivity | exact Hfresh]].
    exists events. unfold acquisitions, cleanups, validations.
    rewrite Hnew, Hclean, Hval. simpl. repeat split. lia.
  - split; [| split].
    + eexists. split; [reflexivity |].
      unfold acquisitions, cleanups, validations.
      rewrite !filter_app, Hnew, Hclean, Hval. simpl. repeat split. lia.
    + simpl. destruct (Nat.eq_dec (nextContext w) (nextContext w));
        [| congruence].
      apply notin_remove. now apply fresh_not_live.
    + unfold freshNext in *. simpl.
      destruct (Nat.eq_dec (nextContext w) (nextContext w)); [| congruence].
      rewrite notin_remove by now apply fresh_not_live.
      eapply Forall_impl; [| exact Hfresh]. simpl. intros id Hid. lia.
Qed.

(** Requests handled one after the other leave no secret context
    behind: after any sequence of requests there is one response per
    request, the live contexts are what they were before the first
    request, and over the whole sequence as many contexts were released
    as were acquired. *)
Theorem handleAll_leaks_nothing (v : accountValidatingController)
  (requests : list (Context_ * admission.Request)) : forall w : World,
  freshNext w ->
  let responses := fst (handleAll v requests w) in
  let w' := snd (handleAll v requests w) in
  List.length responses = List.length requests /\
  liveContexts w' = liveContexts w /\
  freshNext w' /\
  exists events,
    trace w' = (trace w ++ events)%list /\
    acquisitions events = cleanups events.
Proof.
  induction requests as [| [ctx req] rest IH]; intros w Hfresh; cbv zeta.
  - simpl. repeat split; [exact Hfresh |].
    exists []. now rewrite app_nil_r.
  - simpl. unfold bind.
    destruct (Handle v ctx req w) as [response w1] eqn:Hone.
    assert (Hw1 : w1 = snd (Handle v ctx req w)) by now rewrite Hone.
    assert (Hstep :
      (exists events,
          trace w1 = (trace w ++ events)%list /\
          acquisitions events = cleanups events) /\
      liveContexts w1 = liveContexts w /\ freshNext w1).
    { rewrite Hw1.
      destruct (Handle_world v ctx req w)
        as [events [Hnew [Hclean [_ [-> | [namespace ->]]]]]].
      - split; [| split; [reflexivity | exact Hfresh]].
        exists events. unfold acquisitions, cleanups.
        now rewrite Hnew, Hclean.
      - assert (Hrm : List.remove Nat.eq_dec (nextContext w)
                        (nextContext w :: liveContexts w) = liveContexts w).
        { simpl. destruct (Nat.eq_dec (nextContext w) (nextContext w));
            [| congruence].
          apply notin_remove. now apply fresh_not_live. }
        split; [| split].
        + eexists. split; [reflexivity |].
          unfold acquisitions, cleanups.
          now rewrite !filter_app, Hnew, Hclean.
        + exact Hrm.
        + unfold freshNext in *. cbn [nextContext liveContexts].
          rewrite Hrm.
          eapply Forall_impl; [| exact Hfresh]. simpl. intros id Hid. lia. }
    destruct Hstep as [[events1 [Htr1 Hbal1]] [Hlive1 Hfresh1]].
    specialize (IH w1 Hfresh1). cbv zeta in IH.
    destruct (handleAll v rest w1) as [responses w2].
    cbn [fst snd] in *.
    destruct IH as [Hlen [Hlive2 [Hfresh2 [events2 [Htr2 Hbal2]]]]].
    unfold ret. cbn [fst snd].
    split; [simpl; now rewrite Hlen |].
    split; [congruence |].
    split; [exact Hfresh2 |].
    exists (events1 ++ events2)%list. split.
    + now rewrite Htr2, Htr1, app_assoc.
    + unfold acquisitions, cleanups in *.
      rewrite !filter_app, !length_app. lia.
Qed.

End HandleFurther.

Lemma Handle_allows_iff_witness :
  admission.Allowed
    (fst (@Handle (exampleCollaborators None) (exampleController None) None
            (accountRequest "Kubernetes") emptyWorld)) = true.
Proof.
  apply (proj2 (@Handle_allows_iff (exampleCollaborators None)
                  (exampleController None) None
                  (accountRequest "Kubernetes") emptyWorld)).
  right. exists ("spinnaker", "Kubernetes"), "Kubernetes", "Kubernetes".
  repeat split.
Defined.

Lemma Handle_balanced_witness :
  liveContexts
    (snd (@Handle (exampleCollaborators (Some "bad secret"))
            (exampleController (Some "bad secret")) None
            (accountRequest "Kubernetes") emptyWorld)) = [].
Proof.
  destruct (@Handle_balanced (exampleCollaborators (Some "bad secret"))
              (exampleController (Some "bad secret")) None
              (accountRequest "Kubernetes") emptyWorld)
    as [_ [Hlive _]].
  - constructor.
  - exact Hlive.
Defined.

Lemma handleAll_leaks_nothing_witness :
  List.length
    (fst (@handleAll (exampleCollaborators (Some "bad secret"))
            (exampleController (Some "bad secret"))
            [(None, accountRequest "Kubernetes");
             (None, podRequest "{not json");
             (None, accountRequest "");
             (None, accountRequest "Kubernetes")]
            emptyWorld)) = 4 /\
  liveContexts
    (snd (@handleAll (exampleCollaborators (Some "bad secret"))
            (exampleController (Some "bad secret"))
            [(None, accountRequest "Kubernetes");
             (None, podRequest "{not json");
             (None, accountRequest "");
             (None, accountRequest "Kubernetes")]
            emptyWorld)) = [].
Proof.
  destruct (@handleAll_leaks_nothing (exampleCollaborators (Some "bad secret"))
              (exampleController (Some "bad secret"))
              [(None, accountRequest "Kubernetes");
               (None, podRequest "{not json");
               (None, accountRequest "");
               (None, accountRequest "Kubernetes")]
              emptyWorld)
    as [Hlen [Hlive _]].
  - constructor.
  - split; [exact Hlen | exact Hlive].
Defined.

(** ** [Add], [Start] and the guard of the handler *)

Section AddProperties.
Variable Handler : Type.
Context {U : Unicode} {P : Platform} {C : Collaborators}.

(** When the kind of accounts cannot be found, [Add] returns the error
    and registers nothing, so that [Start] on a registry that only
    [Add] fills fails for want of a registered kind.  When the kind
    that is found is the identity the handler answers for, [Add] adds
    one registration for the resource "spinnakeraccounts" and keeps the
    paths of the registry right; the path of that registration is
    [/validate-<group with dots as dashes>-<version>-spinnakeraccount],
    and it is the path of the kind of every request that the guard of
    [Handle] lets through to validation. *)
Theorem Add_registers_handled_kind (controller : Handler) :
  (forall err (st : Server Handler * Cluster),
      Add (Err err) controller [] = (Some err, []) /\
      Start (snd (Add (Err err) controller [])) st =
        (Some "no kind registered for validation", st)) /\
  (forall registrations : list (registration Handler),
      Forall (@pathOfKind Handler U) registrations ->
      exists reg,
        Add (Ok accountIdentity) controller registrations =
          (None, (registrations ++ [reg])%list) /\
        Forall (@pathOfKind Handler U) (registrations ++ [reg]) /\
        r reg = "spinnakeraccounts" /\
        h reg = controller /\
        p reg = "/validate-" ++ dotsAsDashes (gvGroup GetGroupVersion) ++
                "-" ++ gvVersion GetGroupVersion ++ "-spinnakeraccount" /\
        forall req,
          isAccountRequest req = true ->
          generateValidatePath (admission.Kind req) = p reg).
Proof.
  split.
  - intros err st. split; reflexivity.
  - intros registrations Hinv. eexists. split; [reflexivity |].
    split; [| split; [reflexivity | split; [reflexivity | split]]].
    + apply Forall_app. split; [exact Hinv |].
      constructor; [reflexivity | constructor].
    + cbn [p]. unfold generateValidatePath, accountIdentity. cbn [Group Version Kind].
      rewrite Replace_dots. reflexivity.
    + intros req Hm. apply isAccountRequest_identity in Hm.
      rewrite Hm. reflexivity.
Qed.

End AddProperties.

Lemma Add_registers_handled_kind_witness :
  exists reg : registration string,
    r reg = "spinnakeraccounts" /\
    p reg = "/validate-spinnaker-io-v1alpha2-spinnakeraccount".
Proof.
  destruct (proj2 (@Add_registers_handled_kind string byteRunes
                     (examplePlatform (Ok "spinnaker-operator")
                        (Ok "spinnaker") "")
                     (exampleCollaborators None)
                     "accountValidatingController")
              [] (Forall_nil _))
    as [reg [_ [_ [Hr [_ [Hp _]]]]]].
  exists reg. split; [exact Hr | exact Hp].
Defined.
